(** * RAG client: a shallow embedding of the TypeScript front end

    The development follows the layering of [client/src]:
    - [Js]: the few JavaScript idioms the code relies on (truthiness,
      [x || fallback], [String.prototype.trim], optional chaining);
    - [Eff]: a state / exception / trace monad for the async store actions
      (a rejected promise is an exception, every [apiClient] or [axios] call
      is logged in the trace together with what it sent);
    - the domain entities, one module per interface, and [Http], the
      requests that go over the wire;
    - [ChatApi], [ChatService], [ChatStore], [TokenApi], [DocumentApi],
      [DocumentService], [DocumentStore], [Auth]: the code itself;
    - [ChatRun], [ChatPage], [AuthFlow], [DocumentUpload], [GroupApi],
      [GroupService], [GroupStore], [GroupManager], [TokenUsageApi]: the
      rest of the stores, the page handlers and the remaining API calls;
    - [Retrieval]: the server-side scoped retrieval, which the client only
      calls; it is modelled from the specification.

    What the backend answers to a call is not decided by the client, so each
    action takes the outcome of every call it awaits as an argument and the
    theorems quantify over all of them.  Actions run to completion one at a
    time, as they do when the page awaits them. *)

From stdpp Require Import base option list sorting strings pretty gmap.
From Stdlib Require Import Ascii String ZArith QArith.

Local Open Scope string_scope.
Local Open Scope list_scope.

(** ** JavaScript idioms *)
Module Js.

(** [string | null | undefined], as in [groupId?: string | null]. *)
Inductive nullable (A : Type) : Type :=
| Undefined
| Null
| Val (a : A).
Arguments Undefined {A}.
Arguments Null {A}.
Arguments Val {A} a.

(** A string is falsy exactly when it is empty. *)
Definition truthy (s : string) : bool :=
  match s with
  | EmptyString => false
  | String _ _ => true
  end.

(** [s || fallback] on strings. *)
Definition or_str (s fallback : string) : string :=
  if truthy s then s else fallback.

(** [x?.field || fallback] where [x?.field] is a string or undefined. *)
Definition opt_or_str (o : option string) (fallback : string) : string :=
  match o with
  | Some s => or_str s fallback
  | None => fallback
  end.

(** [g || null] for [g : string | null | undefined]. *)
Definition or_null (g : nullable string) : nullable string :=
  match g with
  | Val s => if truthy s then Val s else Null
  | Null | Undefined => Null
  end.

(** ECMAScript WhiteSpace and LineTerminator code units below 256:
    TAB, LF, VT, FF, CR, SP and NBSP.  Strings are sequences of code
    units of that range. *)
Definition is_white_space (a : ascii) : bool :=
  let n := nat_of_ascii a in
  (n =? 9)%nat || (n =? 10)%nat || (n =? 11)%nat || (n =? 12)%nat
  || (n =? 13)%nat || (n =? 32)%nat || (n =? 160)%nat.

Fixpoint trimStart (s : string) : string :=
  match s with
  | EmptyString => EmptyString
  | String a s' => if is_white_space a then trimStart s' else s
  end.

Definition trimEnd (s : string) : string :=
  String.rev (trimStart (String.rev s)).

(** [String.prototype.trim]. *)
Definition trim (s : string) : string := trimEnd (trimStart s).

(** What a rejected promise carries.  An axios failure may hold the
    backend's [response.data.detail]; a [TypeError] (reading a property of
    [undefined]) has no [response]. *)
Inductive exn : Type :=
| AxiosError (detail : option string)
| TypeError (message : string).

(** [error.response?.data?.detail] *)
Definition detail_of (e : exn) : option string :=
  match e with
  | AxiosError d => d
  | TypeError _ => None
  end.

(** [error.response?.data?.detail || fallback] *)
Definition detail_or (e : exn) (fallback : string) : string :=
  opt_or_str (detail_of e) fallback.

End Js.
Export Js.

(** ** The effect monad of the async actions *)
Module Eff.

(** A settled promise: rejected with an error or fulfilled with a value. *)
Definition outcome (A : Type) : Type := (Js.exn + A)%type.

Definition rejected {A} (e : Js.exn) : outcome A := inl e.
Definition fulfilled {A} (a : A) : outcome A := inr a.

Section WithState.
Context {St Ev : Type}.

(** A computation reads and writes the store [St], logs the calls [Ev]
    it makes, and settles. *)
Definition M (A : Type) : Type := St -> outcome A * St * list Ev.

Definition ret {A} (a : A) : M A := fun s => (inr a, s, []).

Definition throw {A} (e : Js.exn) : M A := fun s => (inl e, s, []).

Definition bind {A B} (m : M A) (f : A -> M B) : M B :=
  fun s =>
    match m s with
    | (inl e, s1, t1) => (inl e, s1, t1)
    | (inr a, s1, t1) =>
        match f a s1 with
        | (r, s2, t2) => (r, s2, t1 ++ t2)
        end
    end.

(** zustand's [get()] and [set(...)]. *)
Definition get : M St := fun s => (inr s, s, []).
Definition set_ (f : St -> St) : M unit := fun s => (inr tt, f s, []).

(** An awaited call: [ev] is what is sent, [o] how the call settles. *)
Definition call {A} (ev : Ev) (o : outcome A) : M A :=
  fun s => (o, s, [ev]).

(** An awaited promise that sends nothing. *)
Definition await {A} (o : outcome A) : M A := fun s => (o, s, []).

(** [try { m } catch (error) { h error }] *)
Definition try_catch {A} (m : M A) (h : Js.exn -> M A) : M A :=
  fun s =>
    match m s with
    | (inl e, s1, t1) =>
        match h e s1 with
        | (r, s2, t2) => (r, s2, t1 ++ t2)
        end
    | (inr a, s1, t1) => (inr a, s1, t1)
    end.

(** [try { m } finally { fin }]: [fin] always runs; the outcome of [m]
    is kept unless [fin] itself throws. *)
Definition try_finally {A} (m : M A) (fin : M unit) : M A :=
  fun s =>
    match m s with
    | (r, s1, t1) =>
        match fin s1 with
        | (inl e, s2, t2) => (inl e, s2, t1 ++ t2)
        | (inr _, s2, t2) => (r, s2, t1 ++ t2)
        end
    end.

Definition result_of {A} (x : outcome A * St * list Ev) : outcome A :=
  x.1.1.
Definition state_of {A} (x : outcome A * St * list Ev) : St := x.1.2.
Definition trace_of {A} (x : outcome A * St * list Ev) : list Ev := x.2.

End WithState.

Arguments M : clear implicits.

Declare Scope eff_scope.
Delimit Scope eff_scope with eff.
Notation "x <- m ;; k" := (bind m (fun x => k))
  (at level 100, m at next level, right associativity) : eff_scope.
Notation "m ;;; k" := (bind m (fun _ => k))
  (at level 100, right associativity) : eff_scope.

End Eff.
Export Eff.

(** ** Domain entities ([client/src/domain/entities]) *)

Inductive Role : Type := user | assistant.

Global Instance Role_eq_dec : EqDecision Role.
Proof. solve_decision. Defined.

Module ChatMessage.
Record t : Type := mk {
  id : string;
  session_id : string;
  role : Role;
  content : string;
  created_at : string;
}.
Global Instance eq_dec : EqDecision t.
Proof. solve_decision. Defined.
End ChatMessage.

Module ChatSession.
(** [title?] may be absent; the store guards [messages] with [|| []], so
    the field may be absent in what the backend sends. *)
Record t : Type := mk {
  id : string;
  user_id : string;
  title : option string;
  created_at : string;
  updated_at : string;
  messages : option (list ChatMessage.t);
}.
Global Instance eq_dec : EqDecision t.
Proof. solve_decision. Defined.
End ChatSession.

Inductive DocumentStatus : Type := pending | processing | indexed | error.

Global Instance DocumentStatus_eq_dec : EqDecision DocumentStatus.
Proof. solve_decision. Defined.

Module Document.
Record t : Type := mk {
  id : string;
  user_id : string;
  filename : string;
  file_size : Z;
  mime_type : string;
  status : DocumentStatus;
  storage_key : option string;
  checksum : option string;
  metadata : option (gmap string string);
  created_at : string;
  updated_at : string;
}.
Global Instance eq_dec : EqDecision t.
Proof. solve_decision. Defined.
End Document.

Module User.
Inductive role_t : Type := admin | user.
Record t : Type := mk {
  id : string;
  email : string;
  name : string;
  role : role_t;
  created_at : string;
  updated_at : string;
}.
End User.

(** The browser's [File]: its metadata and its raw bytes. *)
Module File.
Record t : Type := mk {
  name : string;
  size : Z;
  type : string;
  bytes : list Byte.byte;
}.
End File.

(** [domain/entities/UploadRequest] *)
Module UploadRequest.
Record file_entry : Type := mk_entry {
  filename : string;
  file_size : Z;
  content_type : string;
}.
Record t : Type := mk {
  files : list file_entry;
  group_id : nullable string;
}.
End UploadRequest.

Module UploadRequestResponse.
Record upload : Type := mk_upload {
  document_id : string;
  filename : string;
  content_type : string;
  upload_url : string;
  storage_key : string;
  expires_in : Z;
}.
Record t : Type := mk { uploads : list upload }.
End UploadRequestResponse.

Module UploadConfirmRequest.
Record t : Type := mk {
  document_id : string;
  file_size : Z;
  checksum : option string;
  metadata : option (gmap string string);
  group_id : nullable string;
}.
End UploadConfirmRequest.

(** [infrastructure/api/ChatApi.ts]: request and response shapes. *)
Module ChatQueryRequest.
Record t : Type := mk {
  query : string;
  chat_id : option string;
  use_multi_query : option bool;
  use_step_back : option bool;
  group_id : nullable string;
}.
End ChatQueryRequest.

Module ChatQueryResponse.
Record t : Type := mk {
  message : string;
  sources : list string;
  metadata : gmap string string;
}.
End ChatQueryResponse.

Module SendMessageResponse.
Record t : Type := mk {
  assistant_message : ChatMessage.t;
  sources : list string;
  metadata : gmap string string;
}.
End SendMessageResponse.

(** The JSON body of [POST /api/chats/{chat_id}/messages]. *)
Module MessageBody.
Record t : Type := mk {
  content : string;
  use_multi_query : option bool;
  use_step_back : option bool;
  group_id : nullable string;
}.
End MessageBody.

(** [infrastructure/api/TokenApi.ts] *)
Module TokenUsageSummary.
Record t : Type := mk {
  provider : string;
  today_tokens : Z;
  today_requests : Z;
  month_tokens : Z;
  month_requests : Z;
  daily_limit : option Z;
  monthly_limit : option Z;
  daily_percentage : Q;
  monthly_percentage : Q;
}.
End TokenUsageSummary.

(** ** What goes over the wire *)
Module Http.

Inductive method : Type := GET | POST | PUT | PATCH | DELETE.

Inductive payload : Type :=
| NoBody
| MessageJson (b : MessageBody.t)
| QueryJson (r : ChatQueryRequest.t)
| TitleJson (title : option string)
| UploadRequestJson (r : UploadRequest.t)
| UploadConfirmJson (r : UploadConfirmRequest.t)
| RawFile (f : File.t).

Record request : Type := mk {
  meth : method;
  url : string;
  body : payload;
}.

(** The group filter a request carries to the backend, if it is a query. *)
Definition group_filter (r : request) : option (nullable string) :=
  match body r with
  | MessageJson b => Some (MessageBody.group_id b)
  | QueryJson q => Some (ChatQueryRequest.group_id q)
  | _ => None
  end.

(** The expansion flags a request carries, if it is a query. *)
Definition expansion_flags (r : request) : option (option bool * option bool) :=
  match body r with
  | MessageJson b =>
      Some (MessageBody.use_multi_query b, MessageBody.use_step_back b)
  | QueryJson q =>
      Some (ChatQueryRequest.use_multi_query q, ChatQueryRequest.use_step_back q)
  | _ => None
  end.

End Http.

Local Open Scope eff_scope.

(** ** [infrastructure/api/ChatApi.ts] *)
Module ChatApi.
Section Api.
Context {St : Type}.
Abbreviation M := (Eff.M St Http.request).

(** [query]: with a truthy [chat_id] the message goes to the chat's
    own endpoint and the answer is rebuilt from the stored assistant
    message; otherwise the whole request goes to [/api/rag/query].
    [o_messages] and [o_rag] are how the two endpoints would settle. *)
Definition query (request : ChatQueryRequest.t)
    (o_messages : outcome SendMessageResponse.t)
    (o_rag : outcome ChatQueryResponse.t) : M ChatQueryResponse.t :=
  let fallback :=
    call (Http.mk Http.POST "/api/rag/query" (Http.QueryJson request)) o_rag in
  match ChatQueryRequest.chat_id request with
  | Some chat_id =>
      if truthy chat_id then
        response <-
          call (Http.mk Http.POST ("/api/chats/" +:+ chat_id +:+ "/messages")
                  (Http.MessageJson
                     {| MessageBody.content := ChatQueryRequest.query request;
                        MessageBody.use_multi_query :=
                          ChatQueryRequest.use_multi_query request;
                        MessageBody.use_step_back :=
                          ChatQueryRequest.use_step_back request;
                        MessageBody.group_id :=
                          or_null (ChatQueryRequest.group_id request) |}))
               o_messages ;;
        ret {| ChatQueryResponse.message :=
                 ChatMessage.content
                   (SendMessageResponse.assistant_message response);
               ChatQueryResponse.sources := SendMessageResponse.sources response;
               ChatQueryResponse.metadata := SendMessageResponse.metadata response |}
      else fallback
  | None => fallback
  end.

Definition getSessions (o : outcome (list ChatSession.t)) : M (list ChatSession.t) :=
  call (Http.mk Http.GET "/api/chats/" Http.NoBody) o.

Definition getSession (id : string) (o : outcome ChatSession.t) : M ChatSession.t :=
  call (Http.mk Http.GET ("/api/chats/" +:+ id) Http.NoBody) o.

Definition createSession (title : option string) (o : outcome ChatSession.t)
  : M ChatSession.t :=
  call (Http.mk Http.POST "/api/chats/" (Http.TitleJson title)) o.

Definition deleteSession (id : string) (o : outcome unit) : M unit :=
  call (Http.mk Http.DELETE ("/api/chats/" +:+ id) Http.NoBody) o.

Definition updateSessionTitle (id title : string) (o : outcome ChatSession.t)
  : M ChatSession.t :=
  call (Http.mk Http.PATCH ("/api/chats/" +:+ id) (Http.TitleJson (Some title))) o.
End Api.
End ChatApi.

(** ** [application/services/ChatService.ts] *)
Module ChatService.
Section Service.
Context {St : Type}.
Abbreviation M := (Eff.M St Http.request).

(** The request [sendMessage] builds from its three arguments. *)
Definition sendMessage_request (query : string) (sessionId : option string)
    (groupId : nullable string) : ChatQueryRequest.t :=
  {| ChatQueryRequest.query := query;
     ChatQueryRequest.chat_id := sessionId;
     ChatQueryRequest.use_multi_query := Some true;
     ChatQueryRequest.use_step_back := Some false;
     ChatQueryRequest.group_id := or_null groupId |}.

Definition sendMessage (query : string) (sessionId : option string)
    (groupId : nullable string)
    (o_messages : outcome SendMessageResponse.t)
    (o_rag : outcome ChatQueryResponse.t) : M ChatQueryResponse.t :=
  ChatApi.query (sendMessage_request query sessionId groupId) o_messages o_rag.

Definition getSessions := @ChatApi.getSessions St.
Definition getSession := @ChatApi.getSession St.
Definition createSession := @ChatApi.createSession St.
Definition deleteSession := @ChatApi.deleteSession St.
Definition updateSessionTitle := @ChatApi.updateSessionTitle St.
End Service.
End ChatService.

(** ** [presentation/stores/useChatStore.ts] *)
Module ChatStore.

Record ChatState : Type := mk {
  sessions : list ChatSession.t;
  currentSession : option ChatSession.t;
  messages : list ChatMessage.t;
  isLoading : bool;
  isSending : bool;
  error : option string;
}.

Definition initial : ChatState :=
  {| sessions := []; currentSession := None; messages := [];
     isLoading := false; isSending := false; error := None |}.

(** zustand merges the partial object given to [set] into the state; one
    updater per field, composed as the object literal lists them. *)
Definition with_sessions (v : list ChatSession.t) (s : ChatState) : ChatState :=
  mk v (currentSession s) (messages s) (isLoading s) (isSending s) (error s).
Definition with_currentSession (v : option ChatSession.t) (s : ChatState) : ChatState :=
  mk (sessions s) v (messages s) (isLoading s) (isSending s) (error s).
Definition with_messages (v : list ChatMessage.t) (s : ChatState) : ChatState :=
  mk (sessions s) (currentSession s) v (isLoading s) (isSending s) (error s).
Definition with_isLoading (v : bool) (s : ChatState) : ChatState :=
  mk (sessions s) (currentSession s) (messages s) v (isSending s) (error s).
Definition with_isSending (v : bool) (s : ChatState) : ChatState :=
  mk (sessions s) (currentSession s) (messages s) (isLoading s) v (error s).
Definition with_error (v : option string) (s : ChatState) : ChatState :=
  mk (sessions s) (currentSession s) (messages s) (isLoading s) (isSending s) v.

Abbreviation M := (Eff.M ChatState Http.request).

(** [session.messages || []] *)
Definition messages_or_empty (session : ChatSession.t) : list ChatMessage.t :=
  default [] (ChatSession.messages session).

Definition fetchSessions (o : outcome (list ChatSession.t)) : M unit :=
  set_ (fun s => with_error None (with_isLoading true s)) ;;;
  try_catch
    (sessions <- ChatService.getSessions o ;;
     set_ (fun s => with_isLoading false (with_sessions sessions s)))
    (fun error =>
       set_ (fun s =>
               with_isLoading false
                 (with_error (Some (detail_or error "Failed to fetch sessions")) s))).

Definition createSession (title : option string) (o : outcome ChatSession.t)
  : M ChatSession.t :=
  set_ (fun s => with_error None (with_isLoading true s)) ;;;
  try_catch
    (session <- ChatService.createSession title o ;;
     set_ (fun state =>
             with_isLoading false
               (with_messages (messages_or_empty session)
                  (with_currentSession (Some session)
                     (with_sessions (session :: sessions state) state)))) ;;;
     ret session)
    (fun error =>
       set_ (fun s =>
               with_isLoading false
                 (with_error (Some (detail_or error "Failed to create session")) s)) ;;;
       throw error).

Definition selectSession (sessionId : string) (o : outcome ChatSession.t) : M unit :=
  set_ (fun s => with_error None (with_isLoading true s)) ;;;
  try_catch
    (session <- ChatService.getSession sessionId o ;;
     set_ (fun s =>
             with_isLoading false
               (with_messages (messages_or_empty session)
                  (with_currentSession (Some session) s))))
    (fun error =>
       set_ (fun s =>
               with_isLoading false
                 (with_error (Some (detail_or error "Failed to load session")) s))).

(** What the environment contributes to one [sendMessage]: the clock
    readings behind [Date.now()] and [new Date().toISOString()] for the two
    messages built locally, and how each awaited call settles. *)
Record SendEnv : Type := mk_env {
  now_user : N;
  iso_user : string;
  now_assistant : N;
  iso_assistant : string;
  o_messages : outcome SendMessageResponse.t;
  o_rag : outcome ChatQueryResponse.t;
  o_fetch : outcome (list ChatSession.t);
  o_refresh : outcome (list ChatSession.t);
}.

(** [currentSession?.id] *)
Definition session_id_of (cs : option ChatSession.t) : option string :=
  ChatSession.id <$> cs.

Definition userMessage (cs : option ChatSession.t) (query : string) (env : SendEnv)
  : ChatMessage.t :=
  {| ChatMessage.id := "temp-" +:+ pretty (now_user env);
     ChatMessage.session_id := opt_or_str (session_id_of cs) "";
     ChatMessage.role := user;
     ChatMessage.content := query;
     ChatMessage.created_at := iso_user env |}.

Definition assistantMessage (cs : option ChatSession.t)
    (response : ChatQueryResponse.t) (env : SendEnv) : ChatMessage.t :=
  {| ChatMessage.id := "assistant-" +:+ pretty (now_assistant env);
     ChatMessage.session_id := opt_or_str (session_id_of cs) "";
     ChatMessage.role := assistant;
     ChatMessage.content := ChatQueryResponse.message response;
     ChatMessage.created_at := iso_assistant env |}.

(** [messages.filter((m) => m.id !== id)] *)
Definition without_id (id : string) (l : list ChatMessage.t) : list ChatMessage.t :=
  filter (fun m => ChatMessage.id m ≠ id) l.

Definition sendMessage (query : string) (groupId : nullable string) (env : SendEnv)
  : M unit :=
  if negb (truthy (trim query)) then ret tt
  else
    st <- get ;;
    let currentSession := currentSession st in
    let userMessage := userMessage currentSession query env in
    set_ (fun state =>
            with_error None
              (with_isSending true
                 (with_messages (messages state ++ [userMessage]) state))) ;;;
    try_catch
      (response <-
         ChatService.sendMessage query (session_id_of currentSession) groupId
           (o_messages env) (o_rag env) ;;
       let assistantMessage := assistantMessage currentSession response env in
       set_ (fun state =>
               with_isSending false
                 (with_messages (messages state ++ [assistantMessage]) state)) ;;;
       match currentSession with
       | Some currentSession =>
           fetchSessions (o_fetch env) ;;;
           updatedSessions <- ChatService.getSessions (o_refresh env) ;;
           match
             List.find
               (fun s => bool_decide (ChatSession.id s = ChatSession.id currentSession))
               updatedSessions
           with
           | Some updatedSession =>
               if bool_decide
                    (ChatSession.title updatedSession ≠ ChatSession.title currentSession)
               then set_ (with_currentSession (Some updatedSession))
               else ret tt
           | None => ret tt
           end
       | None => ret tt
       end)
      (fun error =>
         now <- get ;;
         set_ (fun s =>
                 with_messages (without_id (ChatMessage.id userMessage) (messages now))
                   (with_isSending false
                      (with_error (Some (detail_or error "Failed to send message")) s)))).

Definition deleteSession (id : string) (o : outcome unit) : M unit :=
  set_ (fun s => with_error None (with_isLoading true s)) ;;;
  try_catch
    (ChatService.deleteSession id o ;;;
     set_ (fun state =>
             let is_current :=
               bool_decide (session_id_of (currentSession state) = Some id) in
             with_isLoading false
               (with_messages (if is_current then [] else messages state)
                  (with_currentSession
                     (if is_current then None else currentSession state)
                     (with_sessions
                        (filter (fun s => ChatSession.id s ≠ id) (sessions state))
                        state)))))
    (fun error =>
       set_ (fun s =>
               with_isLoading false
                 (with_error (Some (detail_or error "Failed to delete session")) s))).

Definition updateSessionTitle (id title : string) (o : outcome ChatSession.t)
  : M unit :=
  set_ (fun s => with_error None (with_isLoading true s)) ;;;
  try_catch
    (updatedSession <- ChatService.updateSessionTitle id title o ;;
     set_ (fun state =>
             with_isLoading false
               (with_currentSession
                  (if bool_decide (session_id_of (currentSession state) = Some id)
                   then Some updatedSession else currentSession state)
                  (with_sessions
                     ((fun s => if bool_decide (ChatSession.id s = id)
                                then updatedSession else s) <$> sessions state)
                     state))))
    (fun error =>
       set_ (fun s =>
               with_isLoading false
                 (with_error (Some (detail_or error "Failed to update title")) s))).

Definition setError (error : option string) : M unit := set_ (with_error error).

(** One call of a store action, with everything the environment decides. *)
Inductive action : Type :=
| FetchSessions (o : outcome (list ChatSession.t))
| CreateSession (title : option string) (o : outcome ChatSession.t)
| SelectSession (sessionId : string) (o : outcome ChatSession.t)
| SendMessage (query : string) (groupId : nullable string) (env : SendEnv)
| DeleteSession (id : string) (o : outcome unit)
| UpdateSessionTitle (id title : string) (o : outcome ChatSession.t)
| SetError (error : option string).

(** The store after the action has settled. *)
Definition run (a : action) (s : ChatState) : ChatState :=
  match a with
  | FetchSessions o => state_of (fetchSessions o s)
  | CreateSession title o => state_of (createSession title o s)
  | SelectSession sessionId o => state_of (selectSession sessionId o s)
  | SendMessage query groupId env => state_of (sendMessage query groupId env s)
  | DeleteSession id o => state_of (deleteSession id o s)
  | UpdateSessionTitle id title o => state_of (updateSessionTitle id title o s)
  | SetError e => state_of (setError e s)
  end.

(** How the backend query of a [sendMessage] issued in state [s] settles:
    the outcome of the awaited [chatService.sendMessage]. *)
Definition answer_of (query : string) (groupId : nullable string) (env : SendEnv)
    (s : ChatState) : outcome ChatQueryResponse.t :=
  result_of
    (ChatService.sendMessage query (session_id_of (currentSession s)) groupId
       (o_messages env) (o_rag env) s).

(** The messages an action builds locally. *)
Definition created (a : action) (s : ChatState) : list ChatMessage.t :=
  match a with
  | SendMessage query groupId env =>
      if negb (truthy (trim query)) then []
      else
        userMessage (currentSession s) query env ::
        match answer_of query groupId env s with
        | inr response => [assistantMessage (currentSession s) response env]
        | inl _ => []
        end
  | _ => []
  end.

(** The server's copy of a session's messages, when the action installs
    one in place of the list. *)
Definition server_copy (a : action) : option (list ChatMessage.t) :=
  match a with
  | CreateSession _ (inr session) => Some (messages_or_empty session)
  | SelectSession _ (inr session) => Some (messages_or_empty session)
  | _ => None
  end.

End ChatStore.

(** ** [infrastructure/api/TokenApi.ts] *)
Module TokenApi.
Section Api.
Context {St : Type}.
Abbreviation M := (Eff.M St Http.request).

(** [getSummary()] has no parameter. *)
Definition getSummary (o : outcome (list TokenUsageSummary.t))
  : M (list TokenUsageSummary.t) :=
  call (Http.mk Http.GET "/api/tokens/summary" Http.NoBody) o.
End Api.
End TokenApi.

(** ** [infrastructure/api/DocumentApi.ts] *)
Module DocumentApi.
Section Api.
Context {St : Type}.
Abbreviation M := (Eff.M St Http.request).

Definition requestUpload (request : UploadRequest.t)
    (o : outcome UploadRequestResponse.t) : M UploadRequestResponse.t :=
  call (Http.mk Http.POST "/api/documents/upload-request"
          (Http.UploadRequestJson request)) o.

Definition confirmUpload (request : UploadConfirmRequest.t)
    (o : outcome Document.t) : M Document.t :=
  call (Http.mk Http.POST "/api/documents/upload/confirm"
          (Http.UploadConfirmJson request)) o.

(** [axios.put(uploadUrl, file, ...)]; the [Content-Type] header is the
    file's own [type], carried by the [File]. *)
Definition uploadFile (uploadUrl : string) (file : File.t) (o : outcome unit)
  : M unit :=
  call (Http.mk Http.PUT uploadUrl (Http.RawFile file)) o.

Definition getDocuments (o : outcome (list Document.t)) : M (list Document.t) :=
  call (Http.mk Http.GET "/api/documents/" Http.NoBody) o.

Definition deleteDocument (id : string) (o : outcome unit) : M unit :=
  call (Http.mk Http.DELETE ("/api/documents/" +:+ id) Http.NoBody) o.
End Api.
End DocumentApi.

(** ** [application/services/DocumentService.ts] *)
Module DocumentService.
Section Service.
Context {St : Type}.
Abbreviation M := (Eff.M St Http.request).

Definition uploadRequest_of (file : File.t) (groupId : nullable string)
  : UploadRequest.t :=
  {| UploadRequest.files :=
       [ {| UploadRequest.filename := File.name file;
            UploadRequest.file_size := File.size file;
            UploadRequest.content_type := File.type file |} ];
     UploadRequest.group_id := or_null groupId |}.

Definition confirmRequest_of (uploadItem : UploadRequestResponse.upload)
    (file : File.t) (groupId : nullable string) : UploadConfirmRequest.t :=
  {| UploadConfirmRequest.document_id :=
       UploadRequestResponse.document_id uploadItem;
     UploadConfirmRequest.file_size := File.size file;
     UploadConfirmRequest.checksum := None;
     UploadConfirmRequest.metadata := None;
     UploadConfirmRequest.group_id := or_null groupId |}.

(** [response.uploads[0]] is [undefined] on an empty array, and reading
    [upload_url] from it throws. *)
Definition uploadFile (file : File.t) (groupId : nullable string)
    (o_request : outcome UploadRequestResponse.t)
    (o_put : outcome unit)
    (o_confirm : outcome Document.t) : M Document.t :=
  response <- DocumentApi.requestUpload (uploadRequest_of file groupId) o_request ;;
  match UploadRequestResponse.uploads response with
  | [] => throw (TypeError "Cannot read properties of undefined (reading 'upload_url')")
  | uploadItem :: _ =>
      DocumentApi.uploadFile (UploadRequestResponse.upload_url uploadItem) file o_put ;;;
      DocumentApi.confirmUpload (confirmRequest_of uploadItem file groupId) o_confirm
  end.

Definition getDocuments := @DocumentApi.getDocuments St.
Definition deleteDocument := @DocumentApi.deleteDocument St.
End Service.
End DocumentService.

(** ** [presentation/stores/useDocumentStore.ts] *)
Module DocumentStore.

Record DocumentState : Type := mk {
  documents : list Document.t;
  selectedDocument : option Document.t;
  isLoading : bool;
  error : option string;
  uploadProgress : Z;
}.

Definition with_documents (v : list Document.t) (s : DocumentState) : DocumentState :=
  mk v (selectedDocument s) (isLoading s) (error s) (uploadProgress s).
Definition with_selectedDocument (v : option Document.t) (s : DocumentState)
  : DocumentState :=
  mk (documents s) v (isLoading s) (error s) (uploadProgress s).
Definition with_isLoading (v : bool) (s : DocumentState) : DocumentState :=
  mk (documents s) (selectedDocument s) v (error s) (uploadProgress s).
Definition with_error (v : option string) (s : DocumentState) : DocumentState :=
  mk (documents s) (selectedDocument s) (isLoading s) v (uploadProgress s).

Abbreviation M := (Eff.M DocumentState Http.request).

Definition fetchDocuments (o : outcome (list Document.t)) : M unit :=
  set_ (fun s => with_error None (with_isLoading true s)) ;;;
  try_catch
    (documents <- DocumentService.getDocuments o ;;
     set_ (fun s => with_isLoading false (with_documents documents s)))
    (fun error =>
       set_ (fun s =>
               with_isLoading false
                 (with_error (Some (detail_or error "Failed to fetch documents")) s))).

Definition selectDocument (document : option Document.t) : M unit :=
  set_ (with_selectedDocument document).

(** [state.selectedDocument?.id === id ? null : state.selectedDocument] *)
Definition deselect (id : string) (sel : option Document.t) : option Document.t :=
  if bool_decide (Document.id <$> sel = Some id) then None else sel.

Definition deleteDocument (id : string) (o : outcome unit) : M unit :=
  set_ (fun s => with_error None (with_isLoading true s)) ;;;
  try_catch
    (DocumentService.deleteDocument id o ;;;
     set_ (fun state =>
             with_isLoading false
               (with_selectedDocument (deselect id (selectedDocument state))
                  (with_documents
                     (filter (fun doc => Document.id doc ≠ id) (documents state))
                     state))))
    (fun error =>
       set_ (fun s =>
               with_isLoading false
                 (with_error (Some (detail_or error "Delete failed")) s))).

Definition setError (error : option string) : M unit := set_ (with_error error).

End DocumentStore.

(** ** [AuthApi.ts], [AuthService.ts] and [useAuthStore.ts] *)
Module Auth.

Record AuthState : Type := mk {
  user : option User.t;
  token : option string;
  isAuthenticated : bool;
  isLoading : bool;
  error : option string;
}.

(** The auth store together with the browser's [localStorage], which
    [AuthService] writes directly. *)
Record World : Type := mk_world {
  store : AuthState;
  localStorage : gmap string string;
}.

Abbreviation M := (Eff.M World Http.request).

Definition removeItem (key : string) : M unit :=
  set_ (fun w => mk_world (store w) (delete key (localStorage w))).

(** zustand's [set] on the store part of the world. *)
Definition set_store (f : AuthState -> AuthState) : M unit :=
  set_ (fun w => mk_world (f (store w)) (localStorage w)).

Module AuthApi.
(** The shipped [AuthApi.logout] has an empty body. *)
Definition logout : M unit := ret tt.
End AuthApi.

Module AuthService.
(** [AuthService] receives its [authApi] through the constructor;
    [api_logout] is that object's [logout]. *)
Definition logout (api_logout : M unit) : M unit :=
  try_finally api_logout (removeItem "auth_token").
End AuthService.

Definition logout (api_logout : M unit) : M unit :=
  try_finally
    (AuthService.logout api_logout)
    (set_store (fun s => mk None None false (isLoading s) (error s))).

End Auth.

(** ** Server-side retrieval (HybridRetriever) *)
Module Retrieval.

(** Modelled from the spec: a Chunk (section 3) with what scoping looks
    at, the user who owns its document and the document's optional group.
    The backend's own type is not among the sources. *)
Record Chunk : Type := mk {
  chunk_id : string;
  document_id : string;
  owner : string;
  group : option string;
  ordinal : nat;
  text : string;
}.

(** Modelled from the spec: the group filter of a request as the retriever
    reads it, a group id, or no filter for [null] or a missing field. *)
Definition filter_of (group_id : nullable string) : option string :=
  match group_id with
  | Val g => Some g
  | Null | Undefined => None
  end.

Section Retriever.
(** [K] is the configured top-K; the two signals score a chunk against
    a search query. *)
Variable K : nat.
Variable vector_score keyword_score : string -> Chunk -> Q.

(** Modelled from the spec: the scope test of HybridRetriever, whose code
    (the backend) is not among the sources.  A chunk is in scope when it
    belongs to the requesting user and, if a group filter is set, to that
    group. *)
Definition in_scope (user_id : string) (group_id : option string) (c : Chunk) : bool :=
  bool_decide (owner c = user_id)
  && match group_id with
     | Some g => bool_decide (group c = Some g)
     | None => true
     end.

(** Descending order of a signal's score. *)
Definition ranks_before (score : Chunk -> Q) (c1 c2 : Chunk) : Prop :=
  Is_true (Qle_bool (score c2) (score c1)).

Global Instance ranks_before_dec score c1 c2 : Decision (ranks_before score c1 c2).
Proof. unfold ranks_before. apply _. Defined.

(** Modelled from the spec: one signal's candidate list, the [K] best
    in-scope chunks in descending score order. *)
Definition candidates (score : Chunk -> Q) (user_id : string)
    (group_id : option string) (corpus : list Chunk) : list Chunk :=
  take K (merge_sort (ranks_before score)
            (List.filter (in_scope user_id group_id) corpus)).

Definition vector_search (user_id : string) (group_id : option string)
    (corpus : list Chunk) (q : string) : list Chunk :=
  candidates (vector_score q) user_id group_id corpus.

Definition keyword_search (user_id : string) (group_id : option string)
    (corpus : list Chunk) (q : string) : list Chunk :=
  candidates (keyword_score q) user_id group_id corpus.

(** Modelled from the spec: HybridRetriever (section 4.3), a vector and a
    keyword candidate list for each planned search query. *)
Definition retrieve (user_id : string) (group_id : option string)
    (corpus : list Chunk) (queries : list string) : list (list Chunk) :=
  q ← queries;
  [vector_search user_id group_id corpus q;
   keyword_search user_id group_id corpus q].
End Retriever.

End Retrieval.

(** ** Settled actions of the chat store *)
Module ChatRun.

(** Forget the value a promise is fulfilled with. *)
Definition forget {A St Ev} (x : outcome A * St * list Ev)
  : outcome unit * St * list Ev :=
  (match result_of x with
   | inl e => inl e
   | inr _ => inr tt
   end, state_of x, trace_of x).

(** An action run to completion: how its promise settles, the store it
    leaves and the requests it sent. *)
Definition perform (a : ChatStore.action) (s : ChatStore.ChatState)
  : outcome unit * ChatStore.ChatState * list Http.request :=
  match a with
  | ChatStore.FetchSessions o => ChatStore.fetchSessions o s
  | ChatStore.CreateSession title o => forget (ChatStore.createSession title o s)
  | ChatStore.SelectSession sessionId o => ChatStore.selectSession sessionId o s
  | ChatStore.SendMessage query groupId env => ChatStore.sendMessage query groupId env s
  | ChatStore.DeleteSession id o => ChatStore.deleteSession id o s
  | ChatStore.UpdateSessionTitle id title o => ChatStore.updateSessionTitle id title o s
  | ChatStore.SetError e => ChatStore.setError e s
  end.

(** The backend failure an action meets, with the text the action falls
    back to when the failure carries no detail. *)
Definition failure_of (a : ChatStore.action) (s : ChatStore.ChatState)
  : option (exn * string) :=
  match a with
  | ChatStore.FetchSessions (inl e) => Some (e, "Failed to fetch sessions")
  | ChatStore.CreateSession _ (inl e) => Some (e, "Failed to create session")
  | ChatStore.SelectSession _ (inl e) => Some (e, "Failed to load session")
  | ChatStore.DeleteSession _ (inl e) => Some (e, "Failed to delete session")
  | ChatStore.UpdateSessionTitle _ _ (inl e) => Some (e, "Failed to update title")
  | ChatStore.SendMessage query groupId env =>
      if truthy (trim query) then
        match ChatStore.answer_of query groupId env s with
        | inl e => Some (e, "Failed to send message")
        | inr _ => None
        end
      else None
  | _ => None
  end.

End ChatRun.

(** ** Signing in: [AuthApi.ts], [AuthService.ts], [useAuthStore.ts],
    [ProtectedRoute.tsx] *)
Module AuthFlow.

(** [domain/entities/Auth] and the [TokenResponse] of [AuthApi.ts] *)
Module LoginRequest.
Record t : Type := mk {
  email : string;
  password : string;
}.
End LoginRequest.

Module TokenResponse.
Record t : Type := mk {
  access_token : string;
  refresh_token : string;
  token_type : string;
}.
End TokenResponse.

(** The [user] object of a [LoginResponse]: four of the user's fields. *)
Module LoginUser.
Record t : Type := mk {
  id : string;
  email : string;
  name : string;
  role : User.role_t;
}.
End LoginUser.

Module LoginResponse.
Record t : Type := mk {
  access_token : string;
  token_type : string;
  user : LoginUser.t;
}.
End LoginResponse.

(** What the auth endpoints are sent. *)
Inductive payload : Type :=
| NoBody
| LoginJson (r : LoginRequest.t).

Record request : Type := mk_request {
  meth : Http.method;
  url : string;
  body : payload;
}.

Abbreviation M := (Eff.M Auth.World request).

Definition setItem (key value : string) : M unit :=
  set_ (fun w => Auth.mk_world (Auth.store w) (<[key := value]> (Auth.localStorage w))).

Definition set_store (f : Auth.AuthState -> Auth.AuthState) : M unit :=
  set_ (fun w => Auth.mk_world (f (Auth.store w)) (Auth.localStorage w)).

(** [AuthApi.login] and [AuthApi.getCurrentUser] *)
Definition api_login (r : LoginRequest.t) (o : outcome TokenResponse.t)
  : M TokenResponse.t :=
  call (mk_request Http.POST "/api/auth/login" (LoginJson r)) o.

Definition api_getCurrentUser (o : outcome User.t) : M User.t :=
  call (mk_request Http.GET "/api/auth/me" NoBody) o.

(** [AuthService.getCurrentUser] *)
Definition getCurrentUser (o : outcome User.t) : M User.t := api_getCurrentUser o.

(** [AuthService.login]: the token is stored as soon as the login call
    answers, before the user is fetched. *)
Definition login (r : LoginRequest.t) (o_login : outcome TokenResponse.t)
    (o_me : outcome User.t) : M LoginResponse.t :=
  tokenResponse <- api_login r o_login ;;
  setItem "auth_token" (TokenResponse.access_token tokenResponse) ;;;
  user <- getCurrentUser o_me ;;
  ret {| LoginResponse.access_token := TokenResponse.access_token tokenResponse;
         LoginResponse.token_type := TokenResponse.token_type tokenResponse;
         LoginResponse.user :=
           {| LoginUser.id := User.id user;
              LoginUser.email := User.email user;
              LoginUser.name := User.name user;
              LoginUser.role := User.role user |} |}.

(** [AuthService.isAuthenticated]: [!!localStorage.getItem('auth_token')] *)
Definition isAuthenticated (w : Auth.World) : bool :=
  match Auth.localStorage w !! "auth_token" with
  | Some t => truthy t
  | None => false
  end.

(** [!get().token] negated: the store holds a non-empty token. *)
Definition has_token (s : Auth.AuthState) : bool :=
  match Auth.token s with
  | Some t => truthy t
  | None => false
  end.

(** The store's [checkAuth]. *)
Definition checkAuth (o_me : outcome User.t) : M unit :=
  w <- get ;;
  if negb (has_token (Auth.store w)) then
    set_store (fun s =>
                 Auth.mk (Auth.user s) (Auth.token s) false (Auth.isLoading s)
                   (Auth.error s))
  else
    set_store (fun s =>
                 Auth.mk (Auth.user s) (Auth.token s) (Auth.isAuthenticated s) true
                   (Auth.error s)) ;;;
    try_catch
      (user <- getCurrentUser o_me ;;
       set_store (fun s => Auth.mk (Some user) (Auth.token s) true false (Auth.error s)))
      (fun _ =>
         set_store (fun s => Auth.mk None None false false (Auth.error s))).

(** The store's [setUser]: [isAuthenticated] is [!!user]. *)
Definition setUser (user : option User.t) : M unit :=
  set_store (fun s =>
               Auth.mk user (Auth.token s)
                 (match user with Some _ => true | None => false end)
                 (Auth.isLoading s) (Auth.error s)).

(** What [ProtectedRoute] renders. *)
Inductive view : Type :=
| Spinner
| ToLogin
| ToUpload
| Children.

(** [user?.role !== 'admin'] *)
Definition not_admin (u : option User.t) : bool :=
  match u with
  | Some u => match User.role u with User.admin => false | User.user => true end
  | None => true
  end.

Definition ProtectedRoute (requireAdmin : bool) (s : Auth.AuthState) : view :=
  if Auth.isLoading s then Spinner
  else if negb (Auth.isAuthenticated s) then ToLogin
  else if requireAdmin && not_admin (Auth.user s) then ToUpload
  else Children.

End AuthFlow.

(** ** [useDocumentStore.ts]: [uploadFile] and its progress timer *)
Module DocumentUpload.

(** The document store together with the timers the page has running:
    the handles of the live intervals and the next handle [setInterval]
    will return.  Every interval of this store runs the same callback. *)
Record World : Type := mk_world {
  store : DocumentStore.DocumentState;
  intervals : list nat;
  next_handle : nat;
}.

Abbreviation M := (Eff.M World Http.request).

(** zustand's [set] on the store part. *)
Definition set_store (f : DocumentStore.DocumentState -> DocumentStore.DocumentState)
  : M unit :=
  set_ (fun w => mk_world (f (store w)) (intervals w) (next_handle w)).

(** A store action run inside this world. *)
Definition on_store {A} (m : DocumentStore.M A) : M A :=
  fun w =>
    match m (store w) with
    | (r, s, t) => (r, mk_world s (intervals w) (next_handle w), t)
    end.

Definition setInterval : M nat :=
  fun w =>
    (inr (next_handle w),
     mk_world (store w) (intervals w ++ [next_handle w]) (S (next_handle w)), []).

Definition clearInterval (handle : nat) : M unit :=
  set_ (fun w =>
          mk_world (store w) (filter (fun h => h ≠ handle) (intervals w)) (next_handle w)).

(** The interval's callback:
    [set((state) => ({ uploadProgress: Math.min(state.uploadProgress + 10, 90) }))] *)
Definition progress_tick (s : DocumentStore.DocumentState) : DocumentStore.DocumentState :=
  DocumentStore.mk (DocumentStore.documents s) (DocumentStore.selectedDocument s)
    (DocumentStore.isLoading s) (DocumentStore.error s)
    (Z.min (DocumentStore.uploadProgress s + 10) 90).

(** [n] runs of the callback while something is awaited; there is nothing
    to run when no interval is live. *)
Definition fire (n : nat) : M unit :=
  set_ (fun w =>
          match intervals w with
          | [] => w
          | _ :: _ => mk_world (Nat.iter n progress_tick (store w)) (intervals w)
                        (next_handle w)
          end).

(** What the environment decides during one [uploadFile]: how the four
    calls settle and how often the timer callback runs while the upload and
    then the refresh are awaited. *)
Record UploadEnv : Type := mk_env {
  o_request : outcome UploadRequestResponse.t;
  o_put : outcome unit;
  o_confirm : outcome Document.t;
  o_fetch : outcome (list Document.t);
  fired_during_upload : nat;
  fired_during_refresh : nat;
}.

(** The store's [uploadFile].  The service call does not read the store,
    so the callbacks that run while it is awaited are run before it. *)
Definition uploadFile (file : File.t) (groupId : nullable string) (env : UploadEnv)
  : M Document.t :=
  set_store (fun s =>
               DocumentStore.mk (DocumentStore.documents s)
                 (DocumentStore.selectedDocument s) true None 0) ;;;
  try_catch
    (progressInterval <- setInterval ;;
     fire (fired_during_upload env) ;;;
     document <-
       DocumentService.uploadFile file groupId (o_request env) (o_put env)
         (o_confirm env) ;;
     clearInterval progressInterval ;;;
     set_store (fun s =>
                  DocumentStore.mk (DocumentStore.documents s)
                    (DocumentStore.selectedDocument s) (DocumentStore.isLoading s)
                    (DocumentStore.error s) 100) ;;;
     fire (fired_during_refresh env) ;;;
     on_store (DocumentStore.fetchDocuments (o_fetch env)) ;;;
     set_store (fun s =>
                  DocumentStore.mk (DocumentStore.documents s)
                    (DocumentStore.selectedDocument s) false (DocumentStore.error s) 0) ;;;
     ret document)
    (fun error =>
       set_store (fun s =>
                    DocumentStore.mk (DocumentStore.documents s)
                      (DocumentStore.selectedDocument s) false
                      (Some (detail_or error "Upload failed")) 0) ;;;
       throw error).

End DocumentUpload.

(** ** Document groups: [DocumentGroup.ts], [GroupApi.ts],
    [GroupService.ts], [useGroupStore.ts], [GroupManager.tsx] *)
Module DocumentGroup.
Record t : Type := mk {
  id : string;
  user_id : string;
  name : string;
  description : option string;
  color : option string;
  created_at : string;
  updated_at : string;
}.
End DocumentGroup.

Module CreateGroupRequest.
Record t : Type := mk {
  name : string;
  description : nullable string;
  color : nullable string;
}.
End CreateGroupRequest.

Module UpdateGroupRequest.
Record t : Type := mk {
  name : option string;
  description : nullable string;
  color : nullable string;
}.
End UpdateGroupRequest.

Module GroupApi.

Inductive payload : Type :=
| NoBody
| CreateJson (r : CreateGroupRequest.t)
| UpdateJson (r : UpdateGroupRequest.t).

Record request : Type := mk {
  meth : Http.method;
  url : string;
  body : payload;
}.

Section Api.
Context {St : Type}.
Abbreviation M := (Eff.M St request).

Definition list (o : outcome (list DocumentGroup.t)) : M (list DocumentGroup.t) :=
  call (mk Http.GET "/api/groups" NoBody) o.

Definition getById (id : string) (o : outcome DocumentGroup.t) : M DocumentGroup.t :=
  call (mk Http.GET ("/api/groups/" +:+ id) NoBody) o.

Definition create (r : CreateGroupRequest.t) (o : outcome DocumentGroup.t)
  : M DocumentGroup.t :=
  call (mk Http.POST "/api/groups" (CreateJson r)) o.

Definition update (id : string) (r : UpdateGroupRequest.t) (o : outcome DocumentGroup.t)
  : M DocumentGroup.t :=
  call (mk Http.PUT ("/api/groups/" +:+ id) (UpdateJson r)) o.

Definition delete (id : string) (o : outcome unit) : M unit :=
  call (mk Http.DELETE ("/api/groups/" +:+ id) NoBody) o.
End Api.

End GroupApi.

(** [GroupService] hands every call to the API unchanged. *)
Module GroupService.
Section Service.
Context {St : Type}.
Definition listGroups := @GroupApi.list St.
Definition getGroup := @GroupApi.getById St.
Definition createGroup := @GroupApi.create St.
Definition updateGroup := @GroupApi.update St.
Definition deleteGroup := @GroupApi.delete St.
End Service.
End GroupService.

Module GroupStore.

Record GroupState : Type := mk {
  groups : list DocumentGroup.t;
  isLoading : bool;
  error : option string;
  selectedGroupId : option string;
}.

Abbreviation M := (Eff.M GroupState GroupApi.request).

Section Store.
(** [error instanceof Error ? error.message : fallback]: what is thrown
    here is always an [Error], so the store shows its [message]; the text
    axios gives its errors is left open. *)
Variable message : exn -> string.

Definition fetchGroups (o : outcome (list DocumentGroup.t)) : M unit :=
  set_ (fun s => mk (groups s) true None (selectedGroupId s)) ;;;
  try_catch
    (groups <- GroupService.listGroups o ;;
     set_ (fun s => mk groups false (error s) (selectedGroupId s)))
    (fun error =>
       set_ (fun s => mk (groups s) false (Some (message error)) (selectedGroupId s))).

Definition createGroup (request : CreateGroupRequest.t) (o : outcome DocumentGroup.t)
  : M DocumentGroup.t :=
  set_ (fun s => mk (groups s) (isLoading s) None (selectedGroupId s)) ;;;
  try_catch
    (newGroup <- GroupService.createGroup request o ;;
     set_ (fun state =>
             mk (groups state ++ [newGroup]) (isLoading state) (error state)
               (selectedGroupId state)) ;;;
     ret newGroup)
    (fun error =>
       set_ (fun s => mk (groups s) (isLoading s) (Some (message error))
                        (selectedGroupId s)) ;;;
       throw error).

Definition updateGroup (id : string) (request : UpdateGroupRequest.t)
    (o : outcome DocumentGroup.t) : M DocumentGroup.t :=
  set_ (fun s => mk (groups s) (isLoading s) None (selectedGroupId s)) ;;;
  try_catch
    (updatedGroup <- GroupService.updateGroup id request o ;;
     set_ (fun state =>
             mk ((fun g => if bool_decide (DocumentGroup.id g = id)
                           then updatedGroup else g) <$> groups state)
               (isLoading state) (error state) (selectedGroupId state)) ;;;
     ret updatedGroup)
    (fun error =>
       set_ (fun s => mk (groups s) (isLoading s) (Some (message error))
                        (selectedGroupId s)) ;;;
       throw error).

Definition deleteGroup (id : string) (o : outcome unit) : M unit :=
  set_ (fun s => mk (groups s) (isLoading s) None (selectedGroupId s)) ;;;
  try_catch
    (GroupService.deleteGroup id o ;;;
     set_ (fun state =>
             mk (filter (fun g => DocumentGroup.id g ≠ id) (groups state))
               (isLoading state) (error state)
               (if bool_decide (selectedGroupId state = Some id)
                then None else selectedGroupId state)))
    (fun error =>
       set_ (fun s => mk (groups s) (isLoading s) (Some (message error))
                        (selectedGroupId s)) ;;;
       throw error).
End Store.

Definition setSelectedGroupId (id : option string) : M unit :=
  set_ (fun s => mk (groups s) (isLoading s) (error s) id).

End GroupStore.

(** ** [presentation/pages/ChatPage.tsx]: the handlers *)
Module ChatPage.

(** The component's own state next to the store: the text being typed,
    the group chosen in the select, and the title being edited. *)
Record PageState : Type := mk {
  input : string;
  selectedGroupId : option string;
  editingSessionId : option string;
  editTitle : string;
}.

(** [string | null] passed where [string | null | undefined] is expected. *)
Definition to_nullable (g : option string) : nullable string :=
  match g with
  | Some g => Val g
  | None => Null
  end.

(** [e.target.value || null] of the group select. *)
Definition select_value (value : string) : option string :=
  if truthy value then Some value else None.

(** [handleGroupChange]: the choice goes to the page's own state and to
    the group store. *)
Definition handleGroupChange (groupId : option string) (p : PageState)
    (g : GroupStore.GroupState) : PageState * GroupStore.GroupState :=
  (mk (input p) groupId (editingSessionId p) (editTitle p),
   state_of (GroupStore.setSelectedGroupId groupId g)).

(** The effect on [storeSelectedGroupId]: a group selected in the store is
    copied into the page's state. *)
Definition syncSelectedGroup (p : PageState) (g : GroupStore.GroupState) : PageState :=
  match GroupStore.selectedGroupId g with
  | Some id => mk (input p) (Some id) (editingSessionId p) (editTitle p)
  | None => p
  end.

(** [handleSubmit]: nothing happens for a blank input or while a message
    is being sent; otherwise the input is cleared and the text goes to the
    store's [sendMessage] with the selected group. *)
Definition handleSubmit (env : ChatStore.SendEnv) (p : PageState)
    (s : ChatStore.ChatState)
  : PageState * (outcome unit * ChatStore.ChatState * list Http.request) :=
  if negb (truthy (trim (input p))) || ChatStore.isSending s
  then (p, (inr tt, s, []))
  else
    let query := input p in
    (mk "" (selectedGroupId p) (editingSessionId p) (editTitle p),
     ChatStore.sendMessage query (to_nullable (selectedGroupId p)) env s).

(** [handleSaveRename] *)
Definition handleSaveRename (o : outcome ChatSession.t) (p : PageState)
    (s : ChatStore.ChatState)
  : PageState * (outcome unit * ChatStore.ChatState * list Http.request) :=
  match editingSessionId p with
  | Some id =>
      if truthy id && truthy (trim (editTitle p)) then
        (mk (input p) (selectedGroupId p) None "",
         ChatStore.updateSessionTitle id (trim (editTitle p)) o s)
      else (p, (inr tt, s, []))
  | None => (p, (inr tt, s, []))
  end.

End ChatPage.

(** The form of [GroupManager]. *)
Module GroupManager.

Record Form : Type := mk {
  editingGroup : option DocumentGroup.t;
  name : string;
  description : string;
  color : string;
}.

Definition DEFAULT_COLOR : string := "#3B82F6".

Definition resetForm : Form := mk None "" "" DEFAULT_COLOR.

(** [description.trim() || null] *)
Definition trimmed_or_null (s : string) : nullable string :=
  if truthy (trim s) then Val (trim s) else Null.

Section Handlers.
Variable message : exn -> string.

(** [handleCreate]: nothing for a blank name; otherwise the trimmed form
    goes to the store, the form is reset on success and kept on failure (the
    store has recorded the error). *)
Definition handleCreate (o : outcome DocumentGroup.t) (f : Form)
    (s : GroupStore.GroupState)
  : Form * (outcome unit * GroupStore.GroupState * list GroupApi.request) :=
  if negb (truthy (trim (name f))) then (f, (inr tt, s, []))
  else
    match GroupStore.createGroup message
            (CreateGroupRequest.mk (trim (name f)) (trimmed_or_null (description f))
               (Val (color f))) o s
    with
    | (inr _, s', t) => (resetForm, (inr tt, s', t))
    | (inl _, s', t) => (f, (inr tt, s', t))
    end.
End Handlers.

End GroupManager.

(** ** [TokenApi.getUsage] and the query string it builds *)
Module TokenUsageApi.

(** One hexadecimal digit, upper case. *)
Definition hex_digit (n : nat) : ascii :=
  ascii_of_nat (if (n <? 10)%nat then 48 + n else 55 + n).

(** [%XX] for one byte. *)
Definition percent (b : nat) : string :=
  String "%" (String (hex_digit (b / 16)) (String (hex_digit (b mod 16)) "")).

(** Bytes the form-urlencoded serializer leaves as they are: ASCII letters
    and digits and [* - . _]. *)
Definition unreserved (n : nat) : bool :=
  ((48 <=? n) && (n <=? 57) || (65 <=? n) && (n <=? 90) || (97 <=? n) && (n <=? 122)
   || (n =? 42) || (n =? 45) || (n =? 46) || (n =? 95))%nat.

(** One code unit: a space becomes [+], other bytes are percent-encoded,
    and a code unit from 128 on is encoded through its two UTF-8 bytes. *)
Definition encode_unit (a : ascii) : string :=
  let n := nat_of_ascii a in
  if (n =? 32)%nat then "+"
  else if unreserved n then String a ""
  else if (n <? 128)%nat then percent n
  else percent (192 + n / 64) +:+ percent (128 + n mod 64).

Fixpoint form_urlencode (s : string) : string :=
  match s with
  | EmptyString => EmptyString
  | String a s' => encode_unit a +:+ form_urlencode s'
  end.

(** [URLSearchParams.prototype.toString] *)
Fixpoint serialize (params : list (string * string)) : string :=
  match params with
  | [] => ""
  | [(k, v)] => form_urlencode k +:+ "=" +:+ form_urlencode v
  | (k, v) :: rest => form_urlencode k +:+ "=" +:+ form_urlencode v +:+ "&" +:+ serialize rest
  end.

Record TokenUsage : Type := mk {
  id : string;
  provider : string;
  date : string;
  tokens_used : Z;
  requests_count : Z;
  daily_limit : option Z;
  monthly_limit : option Z;
  metadata : gmap string string;
}.

Section Api.
(** [days] is a JavaScript number and [days.toString()] is
    [Number.prototype.toString], which is not part of this code: the type of
    numbers, their rendering and the number 30 of the default parameter are
    taken as they come. *)
Variable number : Type.
Variable toString : number -> string.
Variable thirty : number.

(** The parameters [getUsage] appends: [provider] when it is given and not
    empty, then [days] ([days: number = 30] when not given). *)
Definition usage_params (provider : option string) (days : option number)
  : list (string * string) :=
  (match provider with
   | Some p => if truthy p then [("provider", p)] else []
   | None => []
   end) ++ [("days", toString (default thirty days))].

Context {St : Type}.
Definition getUsage (provider : option string) (days : option number)
    (o : outcome (list TokenUsage)) : Eff.M St Http.request (list TokenUsage) :=
  call (Http.mk Http.GET ("/api/tokens/usage?" +:+ serialize (usage_params provider days))
          Http.NoBody) o.
End Api.

(** The characters that can appear in an encoded name or value. *)
Definition safe (a : ascii) : bool :=
  let n := nat_of_ascii a in
  unreserved n || (n =? 37)%nat || (n =? 43)%nat.

End TokenUsageApi.

(** ** Upload confirmation on the server *)
Module Ingestion.

(** Modelled from the spec: what the backend keeps of uploads (sections 2, 3
    and 6), the Document records with their lifecycle status and the
    documents whose ingestion has been started.  The backend's own code is
    not among the sources. *)
Record Backend : Type := mk {
  documents : list (string * DocumentStatus);
  started : list string;
}.

(** Modelled from the spec: what a request of an upload does to that state.
    The Document record is created on upload confirmation, in status
    [pending], and the confirmation is the trigger that starts the document's
    ingestion, which then runs on its own (fire-and-forget); the request for
    a slot and the transfer of the bytes start nothing. *)
Definition receive (b : Backend) (r : Http.request) : Backend :=
  match Http.body r with
  | Http.UploadConfirmJson c =>
      mk (documents b ++ [(UploadConfirmRequest.document_id c, pending)])
        (started b ++ [UploadConfirmRequest.document_id c])
  | _ => b
  end.

End Ingestion.

(** ** Vocabulary of the statements *)

(** The three calls of an upload through the slot [uploadItem], in the order
    they are made. *)
Definition upload_steps (file : File.t) (groupId : nullable string)
    (uploadItem : UploadRequestResponse.upload) : list Http.request :=
  [ Http.mk Http.POST "/api/documents/upload-request"
      (Http.UploadRequestJson (DocumentService.uploadRequest_of file groupId));
    Http.mk Http.PUT (UploadRequestResponse.upload_url uploadItem) (Http.RawFile file);
    Http.mk Http.POST "/api/documents/upload/confirm"
      (Http.UploadConfirmJson
         {| UploadConfirmRequest.document_id :=
              UploadRequestResponse.document_id uploadItem;
            UploadConfirmRequest.file_size := File.size file;
            UploadConfirmRequest.checksum := None;
            UploadConfirmRequest.metadata := None;
            UploadConfirmRequest.group_id := or_null groupId |}) ].

(** ** Sample data

    Concrete stores, environments and backend answers to run the code on. *)

Definition session1 : ChatSession.t :=
  ChatSession.mk "c1" "u1" None "2025-01-01T00:00:00Z" "2025-01-01T00:00:00Z" (Some []).

Definition store1 : ChatStore.ChatState :=
  ChatStore.mk [session1] (Some session1) [] false false None.

Definition reply1 : SendMessageResponse.t :=
  SendMessageResponse.mk
    (ChatMessage.mk "m2" "c1" assistant "42" "2025-01-01T00:00:02Z") [] ∅.

Definition env1 : ChatStore.SendEnv :=
  ChatStore.mk_env 1000 "2025-01-01T00:00:01Z" 2000 "2025-01-01T00:00:03Z"
    (fulfilled reply1)
    (rejected (AxiosError None))
    (fulfilled [session1])
    (fulfilled [session1]).

Definition groq_summary : TokenUsageSummary.t :=
  TokenUsageSummary.mk "groq" 600 3 4200 21 (Some 1000%Z) None (60 # 1) (0 # 1).

Definition tavily_summary : TokenUsageSummary.t :=
  TokenUsageSummary.mk "tavily" 10 1 10 1 None None (0 # 1) (0 # 1).

Definition file1 : File.t :=
  File.mk "spec.pdf" 3 "application/pdf" [Byte.x25; Byte.x50; Byte.x44].

Definition slot1 : UploadRequestResponse.upload :=
  UploadRequestResponse.mk_upload "d1" "spec.pdf" "application/pdf"
    "https://storage.example/put/d1" "u1/d1/spec.pdf" 3600.

Definition document1 : Document.t :=
  Document.mk "d1" "u1" "spec.pdf" 3 "application/pdf" pending
    (Some "u1/d1/spec.pdf") None None "2025-01-01T00:00:00Z" "2025-01-01T00:00:00Z".

(** What scoping promises of a chunk. *)
Definition scoped (user_id : string) (group_id : option string)
    (c : Retrieval.Chunk) : Prop :=
  Retrieval.owner c = user_id /\
  match group_id with
  | Some g => Retrieval.group c = Some g
  | None => True
  end.

(** A store in which [sendMessage] got its answer: an assistant message
    with the answer's text is in the list. *)
Definition answered (text : string) (s : ChatStore.ChatState) : Prop :=
  exists m, m ∈ ChatStore.messages s /\
            ChatMessage.role m = assistant /\ ChatMessage.content m = text.

(** A store that reports an error. *)
Definition failed (s : ChatStore.ChatState) : Prop :=
  exists msg, ChatStore.error s = Some msg.

(** The same environment with the session list refresh failing. *)
Definition env2 : ChatStore.SendEnv :=
  ChatStore.mk_env 1000 "2025-01-01T00:00:01Z" 2000 "2025-01-01T00:00:03Z"
    (fulfilled reply1)
    (rejected (AxiosError None))
    (rejected (AxiosError None))
    (fulfilled [session1]).

(** The same environment with the second read of the session list
    failing. *)
Definition env3 : ChatStore.SendEnv :=
  ChatStore.mk_env 1000 "2025-01-01T00:00:01Z" 2000 "2025-01-01T00:00:03Z"
    (fulfilled reply1)
    (rejected (AxiosError None))
    (fulfilled [session1])
    (rejected (AxiosError (Some "Service unavailable"))).

(** An upload whose slot request is refused, with three timer runs
    meanwhile, from a fresh page. *)
Definition failing_upload : DocumentUpload.UploadEnv :=
  DocumentUpload.mk_env (rejected (AxiosError None)) (fulfilled tt) (fulfilled document1)
    (fulfilled []) 3 0.

Definition fresh_page : DocumentUpload.World :=
  DocumentUpload.mk_world (DocumentStore.mk [] None false None 0) [] 1.

Definition group1 : DocumentGroup.t :=
  DocumentGroup.mk "g1" "u1" "Specs" None (Some "#3B82F6")
    "2025-01-01T00:00:00Z" "2025-01-01T00:00:00Z".

Definition groups1 : GroupStore.GroupState :=
  GroupStore.mk [] false None (Some "g1").

(** * Properties *)

(** ** The monad *)

Section EffLemmas.
Context {St Ev : Type}.
Implicit Types s : St.

Lemma bind_rejected {A B} (m : Eff.M St Ev A) (f : A -> Eff.M St Ev B) s e s1 t1 :
  m s = (inl e, s1, t1) -> bind m f s = (inl e, s1, t1).
Proof. intros H. unfold bind. by rewrite H. Qed.

Lemma bind_fulfilled {A B} (m : Eff.M St Ev A) (f : A -> Eff.M St Ev B) s a s1 t1 :
  m s = (inr a, s1, t1) ->
  bind m f s = (result_of (f a s1), state_of (f a s1), t1 ++ trace_of (f a s1)).
Proof.
  intros H. unfold bind. rewrite H.
  by destruct (f a s1) as [[r s2] t2].
Qed.

Lemma bind_get {B} (f : St -> Eff.M St Ev B) s : bind get f s = f s s.
Proof. unfold bind, get. by destruct (f s s) as [[r s2] t2]. Qed.

Lemma bind_set {B} (g : St -> St) (f : unit -> Eff.M St Ev B) s :
  bind (set_ g) f s = f tt (g s).
Proof. unfold bind, set_. by destruct (f tt (g s)) as [[r s2] t2]. Qed.

(** [finally] runs whatever the body did. *)
Lemma try_finally_state {A} (m : Eff.M St Ev A) (fin : Eff.M St Ev unit) s :
  state_of (try_finally m fin s) = state_of (fin (state_of (m s))).
Proof.
  unfold try_finally, state_of.
  destruct (m s) as [[r s1] t1]; simpl.
  by destruct (fin s1) as [[[e|u] s2] t2].
Qed.

(** A [finally] block that does not throw lets the body's outcome through. *)
Lemma try_finally_result {A} (m : Eff.M St Ev A) (f : St -> St) s :
  result_of (try_finally m (set_ f) s) = result_of (m s).
Proof.
  unfold try_finally, set_, result_of.
  by destruct (m s) as [[r s1] t1].
Qed.
End EffLemmas.

(** ** JavaScript idioms *)

Lemma or_null_idempotent g : or_null (or_null g) = or_null g.
Proof. destruct g as [| |s]; simpl; try done. destruct (truthy s) eqn:E; simpl; by rewrite ?E. Qed.

Lemma or_null_truthy g : truthy g = true -> or_null (Val g) = Val g.
Proof. intros H. simpl. by rewrite H. Qed.

Lemma truthy_nonempty s : truthy s = true <-> s ≠ "".
Proof. destruct s; simpl; split; congruence. Qed.

Lemma or_str_nonempty s fallback : fallback ≠ "" -> or_str s fallback ≠ "".
Proof. unfold or_str. destruct s; simpl; congruence. Qed.

Lemma detail_or_nonempty e fallback : fallback ≠ "" -> detail_or e fallback ≠ "".
Proof.
  intros H. unfold detail_or, opt_or_str.
  destruct (detail_of e); [by apply or_str_nonempty | done].
Qed.

(** ** The chat store: blank queries *)

(** C8: for every query whose trimmed form is empty, the chat store's
    [sendMessage] returns at once: the promise is fulfilled, the store is the
    one it started from (messages, isSending, error, sessions, currentSession
    and isLoading alike) and no request is sent. *)
Theorem sendMessage_blank_no_effect query groupId env (s : ChatStore.ChatState) :
  trim query = "" ->
  ChatStore.sendMessage query groupId env s = (inr tt, s, []).
Proof.
  intros Hblank. unfold ChatStore.sendMessage.
  by rewrite Hblank.
Qed.

Lemma sendMessage_blank_no_effect_witness :
  trim "  " = "" /\
  ChatStore.sendMessage "  " (Val "g1") env1 store1 = (inr tt, store1, []).
Proof.
  split; [reflexivity |].
  apply (sendMessage_blank_no_effect "  " (Val "g1") env1 store1).
  reflexivity.
Defined.

(** ** Logout *)

(** C9: whatever the injected API's [logout] does, and also when it throws,
    after the store's [logout] the [auth_token] entry is gone from
    localStorage and the store holds user null, token null and
    isAuthenticated false; the API's outcome (its error included) is what the
    caller gets. *)
Theorem logout_always_clears_credentials (api_logout : Auth.M unit) (w : Auth.World) :
  let out := Auth.logout api_logout w in
  Auth.localStorage (state_of out) !! "auth_token" = None /\
  Auth.user (Auth.store (state_of out)) = None /\
  Auth.token (Auth.store (state_of out)) = None /\
  Auth.isAuthenticated (Auth.store (state_of out)) = false /\
  result_of out = result_of (api_logout w).
Proof.
  unfold Auth.logout, Auth.AuthService.logout, Auth.set_store, Auth.removeItem.
  cbv zeta. rewrite !try_finally_result, !try_finally_state.
  unfold set_, state_of; simpl.
  repeat split; try reflexivity.
  apply lookup_delete_eq.
Qed.

(** ** The document store *)

(** C10: a successful [deleteDocument id] keeps exactly the documents whose
    id differs from [id], in their order and unchanged, and clears
    [selectedDocument] exactly when it was the deleted document; a failed one
    leaves [documents] and [selectedDocument] as they were and updates only
    [error] and [isLoading]. *)
Theorem deleteDocument_frame id (o : outcome unit) (s : DocumentStore.DocumentState) :
  let s' := state_of (DocumentStore.deleteDocument id o s) in
  DocumentStore.uploadProgress s' = DocumentStore.uploadProgress s /\
  DocumentStore.isLoading s' = false /\
  match o with
  | inr _ =>
      DocumentStore.documents s'
        = filter (fun doc => Document.id doc ≠ id) (DocumentStore.documents s) /\
      (forall doc, doc ∈ DocumentStore.documents s' <->
                   doc ∈ DocumentStore.documents s /\ Document.id doc ≠ id) /\
      DocumentStore.selectedDocument s'
        = match DocumentStore.selectedDocument s with
          | Some sel => if decide (Document.id sel = id) then None else Some sel
          | None => None
          end /\
      DocumentStore.error s' = None
  | inl e =>
      DocumentStore.documents s' = DocumentStore.documents s /\
      DocumentStore.selectedDocument s' = DocumentStore.selectedDocument s /\
      DocumentStore.error s' = Some (detail_or e "Delete failed")
  end.
Proof.
  destruct o as [e|[]]; cbv zeta; simpl.
  - by repeat split.
  - split_and!; try reflexivity.
    + intros doc. rewrite list_elem_of_filter. tauto.
    + unfold DocumentStore.deselect.
      destruct (DocumentStore.selectedDocument s) as [sel|]; simpl; [|done].
      destruct (decide (Document.id sel = id)) as [->|Hne].
      * by rewrite bool_decide_eq_true_2.
      * rewrite bool_decide_eq_false_2; [done | congruence].
Qed.

(** ** What a query sends *)

(** [ChatApi.query] sends exactly one request; it carries the request's
    flags as they are and its group filter through [|| null]. *)
Lemma query_sends_one {St} (request : ChatQueryRequest.t) o_messages o_rag (s : St) :
  exists r,
    trace_of (ChatApi.query request o_messages o_rag s) = [r] /\
    Http.expansion_flags r
      = Some (ChatQueryRequest.use_multi_query request,
              ChatQueryRequest.use_step_back request) /\
    (Http.group_filter r = Some (ChatQueryRequest.group_id request) \/
     Http.group_filter r = Some (or_null (ChatQueryRequest.group_id request))).
Proof.
  unfold ChatApi.query.
  destruct (ChatQueryRequest.chat_id request) as [chat_id|]; [destruct (truthy chat_id)|].
  - unfold bind, call; simpl.
    destruct o_messages as [e|response]; simpl; eexists; split_and!; eauto.
  - unfold call; simpl. eexists; split_and!; eauto.
  - unfold call; simpl. eexists; split_and!; eauto.
Qed.

Lemma sendMessage_sends_one {St} query sessionId groupId o_messages o_rag (s : St) :
  exists r,
    trace_of (ChatService.sendMessage query sessionId groupId o_messages o_rag s) = [r] /\
    Http.expansion_flags r = Some (Some true, Some false) /\
    Http.group_filter r = Some (or_null groupId).
Proof.
  unfold ChatService.sendMessage.
  destruct (query_sends_one (ChatService.sendMessage_request query sessionId groupId)
              o_messages o_rag s) as (r & Htr & Hflags & Hgroup).
  exists r. split_and!; [done | done |].
  simpl in Hgroup. rewrite or_null_idempotent in Hgroup. by destruct Hgroup.
Qed.

(** C2, as stated, fails: no call of the exposed query operation sends
    [use_multi_query = false] with [use_step_back = true], so the flags sent
    are not the caller's to choose. *)
Lemma flags_not_chosen_by_caller :
  ~ (forall want_multi_query want_step_back : bool,
       exists query sessionId groupId o_messages o_rag r,
         r ∈ trace_of (ChatService.sendMessage query sessionId groupId
                         o_messages o_rag ChatStore.initial) /\
         Http.expansion_flags r = Some (Some want_multi_query, Some want_step_back)).
Proof.
  intros Hclaim.
  destruct (Hclaim false true)
    as (query & sessionId & groupId & o_messages & o_rag & r & Hin & Hflags).
  destruct (sendMessage_sends_one query sessionId groupId o_messages o_rag
              ChatStore.initial) as (r' & Htr & Hfixed & _).
  rewrite Htr in Hin. apply list_elem_of_singleton in Hin as ->.
  congruence.
Qed.

(** C2, amended: the exposed query operation [ChatService.sendMessage] has no
    flags parameter; whatever its arguments and however the backend answers,
    it sends one request, and that request carries [use_multi_query = true]
    and [use_step_back = false].  One layer below, [ChatApi.query] forwards
    the flags of the request it is given unchanged. *)
Theorem sendMessage_flags_fixed query sessionId groupId o_messages o_rag
    (s : ChatStore.ChatState) :
  (exists r,
     trace_of (ChatService.sendMessage query sessionId groupId o_messages o_rag s) = [r] /\
     Http.expansion_flags r = Some (Some true, Some false)) /\
  (forall request : ChatQueryRequest.t,
     exists r,
       trace_of (ChatApi.query request o_messages o_rag s) = [r] /\
       Http.expansion_flags r
         = Some (ChatQueryRequest.use_multi_query request,
                 ChatQueryRequest.use_step_back request)).
Proof.
  split.
  - destruct (sendMessage_sends_one query sessionId groupId o_messages o_rag s)
      as (r & Htr & Hflags & _).
    by exists r.
  - intros request.
    destruct (query_sends_one request o_messages o_rag s) as (r & Htr & Hflags & _).
    by exists r.
Qed.

(** ** Token usage *)

(** C5, as stated, fails: with two providers on the backend the
    usage-summary operation returns both entries, not the summary of one
    provider. *)
Lemma getSummary_not_for_one_provider :
  exists l,
    result_of (TokenApi.getSummary (fulfilled [groq_summary; tavily_summary])
                 ChatStore.initial) = inr l /\
    ~ exists provider, Forall (fun x => TokenUsageSummary.provider x = provider) l.
Proof.
  eexists. split; [reflexivity |].
  intros [provider Hall].
  apply Forall_cons in Hall as [Hgroq Hall].
  apply Forall_cons in Hall as [Htavily _].
  simpl in *. congruence.
Qed.

(** C5, amended: the usage-summary operation [TokenApi.getSummary] takes no
    provider argument; it sends one [GET /api/tokens/summary], leaves the
    caller's state alone and hands back what the backend returned, the list
    of the summaries of all providers (or the rejection). *)
Theorem getSummary_returns_all_providers {St} (o : outcome (list TokenUsageSummary.t))
    (s : St) :
  TokenApi.getSummary o s
  = (o, s, [Http.mk Http.GET "/api/tokens/summary" Http.NoBody]).
Proof. reflexivity. Qed.

(** ** Uploading a file *)

(** Every call [uploadFile] makes is one of the three steps, made in their
    order: the trace is a prefix of them (or the lone slot request when the
    backend returns no slot). *)
Lemma uploadFile_trace_prefix {St} file groupId o_request o_put o_confirm (s : St) :
  let out := DocumentService.uploadFile file groupId o_request o_put o_confirm s in
  state_of out = s /\
  match o_request with
  | inr response =>
      match UploadRequestResponse.uploads response with
      | uploadItem :: _ => trace_of out `prefix_of` upload_steps file groupId uploadItem
      | [] => exists r, trace_of out = [r]
      end
  | inl _ => exists r, trace_of out = [r]
  end.
Proof.
  unfold DocumentService.uploadFile, DocumentApi.requestUpload, DocumentApi.uploadFile,
    DocumentApi.confirmUpload, bind, call, throw.
  destruct o_request as [e|response]; simpl; [eauto|].
  destruct (UploadRequestResponse.uploads response) as [|uploadItem rest]; simpl; [eauto|].
  destruct o_put as [e|[]]; simpl.
  - split; [done|]. by eexists [_].
  - split; [done|]. by exists [].
Qed.

(** C6: an upload through [DocumentService.uploadFile] performs exactly
    three steps, in this order: the request for an upload slot, the PUT of the
    raw file to the slot's presigned [upload_url], and the confirmation with
    the slot's [document_id] and the file's size.  When the three calls
    succeed these are the calls made and the upload returns the document the
    confirmation answered with; the upload returns a document in no other
    case.  The confirmation is the trigger of the ingestion: nothing is
    started by the first two calls, the document's ingestion is started once
    the whole trace is received, and the upload returns without waiting for
    it; an upload whose slot request or PUT fails starts no ingestion. *)
Theorem uploadFile_three_steps {St} file groupId o_request o_put o_confirm (s : St)
    (b : Ingestion.Backend) :
  let out := DocumentService.uploadFile file groupId o_request o_put o_confirm s in
  (forall response uploadItem rest d,
     o_request = inr response ->
     UploadRequestResponse.uploads response = uploadItem :: rest ->
     o_put = inr tt ->
     o_confirm = inr d ->
     out = (inr d, s, upload_steps file groupId uploadItem) /\
     Ingestion.started
       (foldl Ingestion.receive b (take 2 (upload_steps file groupId uploadItem)))
     = Ingestion.started b /\
     Ingestion.started (foldl Ingestion.receive b (trace_of out))
     = Ingestion.started b ++ [UploadRequestResponse.document_id uploadItem] /\
     Ingestion.documents (foldl Ingestion.receive b (trace_of out))
     = Ingestion.documents b ++ [(UploadRequestResponse.document_id uploadItem, pending)]) /\
  (forall d,
     result_of out = inr d ->
     exists response uploadItem rest,
       o_request = inr response /\
       UploadRequestResponse.uploads response = uploadItem :: rest /\
       o_put = inr tt /\
       o_confirm = inr d) /\
  (Ingestion.started (foldl Ingestion.receive b (trace_of out)) = Ingestion.started b \/
   exists response uploadItem rest,
     o_request = inr response /\
     UploadRequestResponse.uploads response = uploadItem :: rest /\
     o_put = inr tt /\
     trace_of out = upload_steps file groupId uploadItem).
Proof.
  cbv zeta.
  unfold DocumentService.uploadFile, DocumentApi.requestUpload, DocumentApi.uploadFile,
    DocumentApi.confirmUpload, bind, call, throw, result_of, trace_of.
  split_and!.
  - intros response uploadItem rest d -> Hup -> ->. by rewrite Hup.
  - intros d.
    destruct o_request as [e|response]; simpl; [done|].
    destruct (UploadRequestResponse.uploads response) as [|uploadItem rest] eqn:Hup;
      simpl; [done|].
    destruct o_put as [e|[]]; simpl; [done|].
    intros ->. by exists response, uploadItem, rest.
  - destruct o_request as [e|response]; simpl; [by left|].
    destruct (UploadRequestResponse.uploads response) as [|uploadItem rest] eqn:Hup;
      simpl; [by left|].
    destruct o_put as [e|[]]; simpl; [by left|].
    right. by exists response, uploadItem, rest.
Qed.

Lemma uploadFile_three_steps_witness :
  DocumentService.uploadFile file1 Null
    (fulfilled (UploadRequestResponse.mk [slot1])) (fulfilled tt) (fulfilled document1)
    ChatStore.initial
  = (inr document1, ChatStore.initial, upload_steps file1 Null slot1).
Proof.
  apply (proj1 (uploadFile_three_steps file1 Null
                  (fulfilled (UploadRequestResponse.mk [slot1])) (fulfilled tt)
                  (fulfilled document1) ChatStore.initial (Ingestion.mk [] []))
           (UploadRequestResponse.mk [slot1]) slot1 [] document1
           eq_refl eq_refl eq_refl eq_refl).
Defined.

(** ** Scoped retrieval *)

Section RetrievalLemmas.
Variable K : nat.
Variable vector_score keyword_score : string -> Retrieval.Chunk -> Q.

Lemma in_scope_scoped user_id group_id c :
  Retrieval.in_scope user_id group_id c = true -> scoped user_id group_id c.
Proof.
  unfold Retrieval.in_scope, scoped. intros H.
  apply andb_true_iff in H as [Howner Hgroup].
  apply bool_decide_eq_true in Howner. split; [done|].
  destruct group_id; [by apply bool_decide_eq_true in Hgroup | done].
Qed.

(** Ranking and cutting to the top K only reorder and drop chunks. *)
Lemma candidates_scoped score user_id group_id corpus :
  Forall (scoped user_id group_id)
    (Retrieval.candidates K score user_id group_id corpus).
Proof.
  unfold Retrieval.candidates.
  apply Forall_take.
  rewrite merge_sort_Permutation.
  apply Forall_forall. intros c Hc.
  apply list_elem_of_In, filter_In in Hc as [_ Hc].
  by apply in_scope_scoped.
Qed.

Lemma retrieve_scoped user_id group_id corpus queries :
  Forall (Forall (scoped user_id group_id))
    (Retrieval.retrieve K vector_score keyword_score user_id group_id corpus queries).
Proof.
  unfold Retrieval.retrieve.
  induction queries as [|q queries IH]; simpl; [constructor|].
  repeat constructor; [apply candidates_scoped .. | exact IH].
Qed.
End RetrievalLemmas.

(** ** The chat store: sending a message *)

(** The service call settles the same way in every store, leaves the store
    alone and sends one request. *)
Lemma service_sendMessage_run {St St'} query sessionId groupId o_messages o_rag
    (s : St) (s0 : St') :
  exists r,
    ChatService.sendMessage query sessionId groupId o_messages o_rag s
    = (result_of (ChatService.sendMessage query sessionId groupId o_messages o_rag s0),
       s, [r]) /\
    Http.group_filter r = Some (or_null groupId).
Proof.
  destruct (sendMessage_sends_one query sessionId groupId o_messages o_rag s)
    as (r & Htr & _ & Hgroup).
  exists r. split; [|done]. revert Htr.
  unfold ChatService.sendMessage, ChatApi.query, ChatService.sendMessage_request,
    bind, call, ret, result_of, trace_of; simpl.
  destruct sessionId as [chat_id|]; [destruct (truthy chat_id)|]; simpl;
    try (by intros ->).
  destruct o_messages; simpl; by intros ->.
Qed.

(** The two locally built ids never coincide. *)
Lemma assistant_id_not_temp cs cs' query response env :
  ChatMessage.id (ChatStore.assistantMessage cs response env)
  ≠ ChatMessage.id (ChatStore.userMessage cs' query env).
Proof. simpl. discriminate. Qed.

Lemma without_id_app id l1 l2 :
  ChatStore.without_id id (l1 ++ l2)
  = ChatStore.without_id id l1 ++ ChatStore.without_id id l2.
Proof. apply filter_app. Qed.

Lemma without_id_same id m :
  ChatMessage.id m = id -> ChatStore.without_id id [m] = [].
Proof.
  intros H. unfold ChatStore.without_id.
  rewrite filter_cons_False; [done | by intros Hne].
Qed.

Lemma without_id_other id m :
  ChatMessage.id m ≠ id -> ChatStore.without_id id [m] = [m].
Proof. intros H. unfold ChatStore.without_id. by rewrite filter_cons_True. Qed.

(** The shapes a non-blank [sendMessage] can leave the store in.  [u] is the
    optimistic user message and [a] the assistant message built from the
    answer. *)
Lemma sendMessage_shapes query groupId env (s : ChatStore.ChatState) :
  trim query ≠ "" ->
  let out := ChatStore.sendMessage query groupId env s in
  let s' := state_of out in
  let u := ChatStore.userMessage (ChatStore.currentSession s) query env in
  result_of out = inr tt /\
  ChatStore.isSending s' = false /\
  omap Http.group_filter (trace_of out) = [or_null groupId] /\
  match ChatStore.answer_of query groupId env s with
  | inl e =>
      ChatStore.messages s' = ChatStore.without_id (ChatMessage.id u) (ChatStore.messages s) /\
      ChatStore.error s' = Some (detail_or e "Failed to send message")
  | inr response =>
      let a := ChatStore.assistantMessage (ChatStore.currentSession s) response env in
      ChatStore.messages s' = ChatStore.messages s ++ [u; a] \/
      ChatStore.messages s'
      = ChatStore.without_id (ChatMessage.id u) (ChatStore.messages s) ++ [a]
  end.
Proof.
  intros Hquery. apply truthy_nonempty in Hquery.
  cbv zeta.
  destruct (ChatStore.sendMessage query groupId env s) as [[res s'] tr] eqn:Hout.
  unfold result_of, state_of, trace_of; simpl fst; simpl snd.
  unfold ChatStore.sendMessage in Hout. rewrite Hquery in Hout.
  change (negb true) with false in Hout. cbv iota in Hout.
  rewrite bind_get, bind_set in Hout.
  unfold try_catch, bind at 1 in Hout.
  match type of Hout with
  | context [ChatService.sendMessage _ _ _ _ _ ?x] => set (s1 := x) in Hout
  end.
  destruct (service_sendMessage_run query
              (ChatStore.session_id_of (ChatStore.currentSession s)) groupId
              (ChatStore.o_messages env) (ChatStore.o_rag env) s1 s)
    as (r & Hrun & Hgroup).
  rewrite Hrun in Hout. fold (ChatStore.answer_of query groupId env s) in Hout.
  destruct (ChatStore.answer_of query groupId env s) as [e|response].
  - simpl in Hout. injection Hout as <- <- <-. simpl. rewrite Hgroup.
    split_and!; try done.
    rewrite without_id_app, without_id_same by reflexivity. by rewrite app_nil_r.
  - rewrite bind_set in Hout.
    destruct (ChatStore.currentSession s) as [cs|] eqn:Hcs.
    + unfold ChatStore.fetchSessions, ChatService.getSessions, ChatApi.getSessions,
        bind, try_catch, set_, call, get, ret in Hout.
      destruct (ChatStore.o_fetch env) as [e1|fetched];
        destruct (ChatStore.o_refresh env) as [e2|refreshed]; simpl in Hout;
        try (destruct (List.find _ refreshed) as [updated|];
             [destruct (bool_decide _)|]; simpl in Hout);
        injection Hout as <- <- <-; simpl; rewrite Hgroup;
        (split_and!; [done | done | done |]);
        try (left; by rewrite <- app_assoc);
        right; rewrite !without_id_app, without_id_same, app_nil_r by reflexivity;
        by rewrite without_id_other by discriminate.
    + simpl in Hout. injection Hout as <- <- <-. simpl. rewrite Hgroup.
      split_and!; try done. left. by rewrite <- app_assoc.
Qed.

(** C3, as stated, fails: with a session selected, the answer arrives and
    the assistant message is appended, then the refresh of the session list
    fails and [fetchSessions] reports it in the same [error] field.  The call
    ends with an answer and an error at once, and the user message is still
    in the list. *)
Lemma sendMessage_answer_and_error :
  let s' := state_of (ChatStore.sendMessage "hi" Null env2 store1) in
  trim "hi" ≠ "" /\
  answered "42" s' /\
  failed s' /\
  ChatStore.userMessage (Some session1) "hi" env2 ∈ ChatStore.messages s' /\
  ~ ((answered "42" s' /\ ~ failed s') \/ (failed s' /\ ~ answered "42" s')).
Proof.
  assert (Hanswered :
            answered "42" (state_of (ChatStore.sendMessage "hi" Null env2 store1))).
  { exists (ChatMessage.mk "assistant-2000" "c1" assistant "42" "2025-01-01T00:00:03Z").
    split; [|done]. vm_compute. apply list_elem_of_further, list_elem_of_here. }
  assert (Hfailed : failed (state_of (ChatStore.sendMessage "hi" Null env2 store1))).
  { exists "Failed to fetch sessions". reflexivity. }
  cbv zeta. split_and!; [done | done | done | vm_compute; apply list_elem_of_here |].
  intros [[_ Hnot] | [_ Hnot]]; by apply Hnot.
Qed.

(** The [try] block of [sendMessage] also covers the reads of the session
    list: when the second one throws, the [catch] runs after the answer was
    appended. *)
Example sendMessage_refresh_throws :
  let s' := state_of (ChatStore.sendMessage "hi" Null env3 store1) in
  ChatStore.messages s'
  = [ChatMessage.mk "assistant-2000" "c1" assistant "42" "2025-01-01T00:00:03Z"] /\
  ChatStore.error s' = Some "Service unavailable" /\
  ChatStore.isSending s' = false.
Proof. by vm_compute. Qed.

(** C3, amended: a [sendMessage] with a non-blank query always settles
    (the promise is fulfilled) with [isSending] cleared, and never silently:
    when the backend query succeeds, an assistant message with the answer's
    text is in the list; when it fails, [error] holds the failure's detail,
    or ["Failed to send message"], which is a non-empty message, the
    optimistic user message is no longer in the list and nothing was added to
    the messages that were there.  (After an answer, the refresh of the
    sessions may set [error] as well.) *)
Theorem sendMessage_answer_or_error query groupId env (s : ChatStore.ChatState) :
  trim query ≠ "" ->
  let out := ChatStore.sendMessage query groupId env s in
  let s' := state_of out in
  let u := ChatStore.userMessage (ChatStore.currentSession s) query env in
  result_of out = inr tt /\
  ChatStore.isSending s' = false /\
  match ChatStore.answer_of query groupId env s with
  | inr response =>
      ChatStore.assistantMessage (ChatStore.currentSession s) response env
        ∈ ChatStore.messages s' /\
      answered (ChatQueryResponse.message response) s'
  | inl e =>
      ChatStore.error s' = Some (detail_or e "Failed to send message") /\
      detail_or e "Failed to send message" ≠ "" /\
      failed s' /\
      (u ∉ ChatStore.messages s') /\
      (ChatStore.messages s' `sublist_of` ChatStore.messages s) /\
      ChatStore.messages s' = ChatStore.without_id (ChatMessage.id u) (ChatStore.messages s)
  end.
Proof.
  intros Hquery.
  destruct (sendMessage_shapes query groupId env s Hquery)
    as (Hres & Hsending & _ & Hshape).
  cbv zeta. split_and!; [done | done |].
  destruct (ChatStore.answer_of query groupId env s) as [e|response].
  - destruct Hshape as [Hmessages Herror]. split_and!; try done.
    + by apply detail_or_nonempty.
    + by eexists.
    + rewrite Hmessages. unfold ChatStore.without_id.
      intros Hin. by apply list_elem_of_filter in Hin as [Hne _].
    + rewrite Hmessages. apply sublist_filter.
  - assert (Hin : ChatStore.assistantMessage (ChatStore.currentSession s) response env
                    ∈ ChatStore.messages (state_of (ChatStore.sendMessage query groupId env s))).
    { destruct Hshape as [-> | ->]; set_solver. }
    split; [done|]. by eexists.
Qed.

Lemma sendMessage_answer_or_error_witness :
  trim "hi" ≠ "" /\
  ChatStore.isSending (state_of (ChatStore.sendMessage "hi" Null env1 store1)) = false.
Proof.
  split; [discriminate |].
  apply (sendMessage_answer_or_error "hi" Null env1 store1). discriminate.
Defined.

(** ** The chat store: messages are never edited *)

Lemma sublist_app_nil_r {A} (l : list A) : l `sublist_of` l ++ [].
Proof. by rewrite app_nil_r. Qed.

Lemma sendMessage_messages_sublist query groupId env (s : ChatStore.ChatState) :
  ChatStore.messages (state_of (ChatStore.sendMessage query groupId env s))
  `sublist_of`
  ChatStore.messages s ++ ChatStore.created (ChatStore.SendMessage query groupId env) s.
Proof.
  unfold ChatStore.created.
  destruct (truthy (trim query)) eqn:Hquery; simpl negb; cbv iota.
  - apply truthy_nonempty in Hquery.
    destruct (sendMessage_shapes query groupId env s Hquery) as (_ & _ & _ & Hshape).
    destruct (ChatStore.answer_of query groupId env s) as [e|response].
    + destruct Hshape as [-> _].
      apply sublist_inserts_r, sublist_filter.
    + destruct Hshape as [-> | ->]; [done|].
      apply sublist_app; [apply sublist_filter|].
      by apply sublist_cons.
  - unfold ChatStore.sendMessage. rewrite Hquery. simpl.
    apply sublist_app_nil_r.
Qed.

(** C7: no chat-store action edits a message in place.  After any action,
    either the list is the server's copy of a session, exactly as the backend
    sent it ([createSession] and [selectSession] on success), or it is a
    sublist of the old list followed by the messages the action built: every
    message still there is one of those records, whole (id, role, content and
    created_at included) and in its order; an action can only append and
    remove. *)
Theorem chat_messages_immutable (a : ChatStore.action) (s : ChatStore.ChatState) :
  match ChatStore.server_copy a with
  | Some from_server => ChatStore.messages (ChatStore.run a s) = from_server
  | None =>
      ChatStore.messages (ChatStore.run a s)
      `sublist_of` ChatStore.messages s ++ ChatStore.created a s
  end.
Proof.
  destruct a as [o | title o | sessionId o | query groupId env | id o | id title o | e].
  - destruct o; simpl; apply sublist_app_nil_r.
  - destruct o; simpl; [apply sublist_app_nil_r | done].
  - destruct o; simpl; [apply sublist_app_nil_r | done].
  - apply sendMessage_messages_sublist.
  - destruct o as [err|[]]; simpl; [apply sublist_app_nil_r|].
    destruct (bool_decide _); [apply sublist_nil_l | apply sublist_app_nil_r].
  - destruct o; simpl; apply sublist_app_nil_r.
  - simpl. apply sublist_app_nil_r.
Qed.

(** ** Scoping, end to end *)

(** C1: every query request built by [sendMessage] carries the caller's
    group filter, [group_id] being the selected group, or null when none is
    selected (null, undefined, or the empty value of the "All Documents"
    option): this holds of the one request [ChatService.sendMessage] sends, on
    either endpoint, and of the store's [sendMessage], which sends exactly
    one query for a non-blank text and none for a blank one.  Retrieval for
    user [U] under the filter that request carries puts in no candidate list,
    vector or keyword, for any planned query, a chunk of another user or,
    when a group [G] is selected, of a group other than [G]. *)
Theorem retrieval_scoped_to_user_and_group
    (K : nat) (vector_score keyword_score : string -> Retrieval.Chunk -> Q)
    (U : string) (corpus : list Retrieval.Chunk) (queries : list string)
    query groupId env (s : ChatStore.ChatState) :
  let group_id := match groupId with
                  | Val G => if decide (G = "") then Null else Val G
                  | Null | Undefined => Null
                  end in
  omap Http.group_filter (trace_of (ChatStore.sendMessage query groupId env s))
  = (if truthy (trim query) then [group_id] else []) /\
  (forall sessionId o_messages o_rag,
     exists r,
       trace_of (ChatService.sendMessage query sessionId groupId o_messages o_rag s) = [r] /\
       Http.group_filter r = Some group_id) /\
  Forall (Forall (fun c =>
                    Retrieval.owner c = U /\
                    forall G, groupId = Val G -> G ≠ "" ->
                              Retrieval.group c = Some G))
    (Retrieval.retrieve K vector_score keyword_score U
       (Retrieval.filter_of group_id) corpus queries).
Proof.
  assert (Hnull : or_null groupId
                  = match groupId with
                    | Val G => if decide (G = "") then Null else Val G
                    | Null | Undefined => Null
                    end).
  { destruct groupId as [| |G]; simpl; try done. destruct G; by simpl. }
  cbv zeta. rewrite <- Hnull. split_and!.
  - destruct (truthy (trim query)) eqn:Hquery.
    + apply truthy_nonempty in Hquery.
      by destruct (sendMessage_shapes query groupId env s Hquery) as (_ & _ & -> & _).
    + unfold ChatStore.sendMessage. by rewrite Hquery.
  - intros sessionId o_messages o_rag.
    destruct (sendMessage_sends_one query sessionId groupId o_messages o_rag s)
      as (r & Htr & _ & Hgroup).
    by exists r.
  - eapply Forall_impl; [apply retrieve_scoped|].
    intros cands Hcands. eapply Forall_impl; [exact Hcands|].
    intros c [Howner Hscope]. split; [done|].
    intros G -> HG. simpl in Hscope.
    apply truthy_nonempty in HG. by rewrite HG in Hscope.
Qed.

(** * Further properties of the code *)

(** ** The chat store, action by action *)

(** X1: [deleteSession]: on success the sessions with that id are gone and the
    others stay, in order; the open conversation is closed (no current
    session, no messages) exactly when it was the deleted one.  On failure
    sessions, current session and messages are as before. *)
Theorem deleteSession_frame id (o : outcome unit) (s : ChatStore.ChatState) :
  let s' := state_of (ChatStore.deleteSession id o s) in
  ChatStore.isSending s' = ChatStore.isSending s /\
  match o with
  | inr _ =>
      ChatStore.sessions s'
      = filter (fun x => ChatSession.id x ≠ id) (ChatStore.sessions s) /\
      match ChatStore.currentSession s with
      | Some cs =>
          if decide (ChatSession.id cs = id)
          then ChatStore.currentSession s' = None /\ ChatStore.messages s' = []
          else ChatStore.currentSession s' = Some cs /\
               ChatStore.messages s' = ChatStore.messages s
      | None =>
          ChatStore.currentSession s' = None /\
          ChatStore.messages s' = ChatStore.messages s
      end
  | inl e =>
      ChatStore.sessions s' = ChatStore.sessions s /\
      ChatStore.currentSession s' = ChatStore.currentSession s /\
      ChatStore.messages s' = ChatStore.messages s
  end.
Proof.
  destruct o as [e|[]]; cbv zeta; simpl; [done|].
  split_and!; try done.
  destruct (ChatStore.currentSession s) as [cs|]; simpl.
  - destruct (decide (ChatSession.id cs = id)) as [->|Hne].
    + by rewrite !bool_decide_eq_true_2.
    + rewrite !bool_decide_eq_false_2; [done | congruence ..].
  - done.
Qed.

(** X2: [updateSessionTitle]: on success the list of sessions keeps its length
    and order, every session with another id is untouched and each one with
    that id is the backend's updated copy; the current session is replaced
    exactly when it has that id.  Messages are never touched, and on failure
    neither are the sessions. *)
Theorem updateSessionTitle_frame id title (o : outcome ChatSession.t)
    (s : ChatStore.ChatState) :
  let s' := state_of (ChatStore.updateSessionTitle id title o s) in
  ChatStore.messages s' = ChatStore.messages s /\
  List.length (ChatStore.sessions s') = List.length (ChatStore.sessions s) /\
  match o with
  | inr updated =>
      (forall i x, ChatStore.sessions s !! i = Some x ->
                   ChatStore.sessions s' !! i
                   = Some (if decide (ChatSession.id x = id) then updated else x)) /\
      ChatStore.currentSession s'
      = match ChatStore.currentSession s with
        | Some cs => if decide (ChatSession.id cs = id) then Some updated else Some cs
        | None => None
        end
  | inl e =>
      ChatStore.sessions s' = ChatStore.sessions s /\
      ChatStore.currentSession s' = ChatStore.currentSession s
  end.
Proof.
  destruct o as [e|updated]; cbv zeta; simpl; [done|].
  split_and!; [done | by rewrite length_fmap | |].
  - intros i x Hx. rewrite list_lookup_fmap, Hx. simpl.
    destruct (decide (ChatSession.id x = id)).
    + by rewrite bool_decide_eq_true_2.
    + by rewrite bool_decide_eq_false_2.
  - destruct (ChatStore.currentSession s) as [cs|]; simpl.
    + destruct (decide (ChatSession.id cs = id)) as [->|Hne].
      * by rewrite bool_decide_eq_true_2.
      * rewrite bool_decide_eq_false_2; [done | congruence].
    + done.
Qed.

(** [createSession]: on success the new session is put in front of the
    list, becomes the current one and its messages (none if the backend sent
    no list) are shown, and it is the value returned; on failure the error is
    thrown on to the caller and sessions, current session and messages stay
    as they were. *)
Theorem createSession_frame title (o : outcome ChatSession.t)
    (s : ChatStore.ChatState) :
  let out := ChatStore.createSession title o s in
  result_of out = o /\
  trace_of out = [Http.mk Http.POST "/api/chats/" (Http.TitleJson title)] /\
  match o with
  | inr session =>
      ChatStore.sessions (state_of out) = session :: ChatStore.sessions s /\
      ChatStore.currentSession (state_of out) = Some session /\
      ChatStore.messages (state_of out) = default [] (ChatSession.messages session) /\
      ChatStore.error (state_of out) = None
  | inl e =>
      ChatStore.sessions (state_of out) = ChatStore.sessions s /\
      ChatStore.currentSession (state_of out) = ChatStore.currentSession s /\
      ChatStore.messages (state_of out) = ChatStore.messages s /\
      ChatStore.error (state_of out) = Some (detail_or e "Failed to create session")
  end.
Proof. by destruct o as [e|session]. Qed.

(** ** The chat store as a whole *)

Lemma perform_state a s : state_of (ChatRun.perform a s) = ChatStore.run a s.
Proof. by destruct a. Qed.

(** X3: Of all the actions only [createSession] can reject, and it does so
    exactly when its backend call failed, with that error; every other
    action swallows failures into the store. *)
Theorem only_createSession_rejects (a : ChatStore.action) (s : ChatStore.ChatState) e :
  result_of (ChatRun.perform a s) = inl e
  <-> exists title, a = ChatStore.CreateSession title (inl e).
Proof.
  split.
  - destruct a as [o | title o | sessionId o | query groupId env | id o | id title o | err];
      simpl.
    + by destruct o.
    + destruct o as [e'|session]; simpl; [|done].
      intros [= ->]. by exists title.
    + by destruct o.
    + destruct (truthy (trim query)) eqn:Hquery.
      * apply truthy_nonempty in Hquery.
        destruct (sendMessage_shapes query groupId env s Hquery) as (-> & _). done.
      * unfold ChatStore.sendMessage. by rewrite Hquery.
    + by destruct o as [e'|[]].
    + by destruct o.
    + done.
  - by intros [title ->].
Qed.

(** The request of the service call does not depend on the store it is
    made from. *)
Lemma service_sendMessage_trace {St St'} query sessionId groupId o_messages o_rag
    (s : St) (s0 : St') :
  trace_of (ChatService.sendMessage query sessionId groupId o_messages o_rag s)
  = trace_of (ChatService.sendMessage query sessionId groupId o_messages o_rag s0).
Proof.
  unfold ChatService.sendMessage, ChatApi.query, ChatService.sendMessage_request,
    bind, call, ret, trace_of; simpl.
  destruct sessionId as [chat_id|]; [destruct (truthy chat_id)|]; simpl; try done.
  by destruct o_messages.
Qed.

(** What a non-blank [sendMessage] does besides the messages: the requests
    it sends, and what it may change of the rest of the store. *)
Lemma sendMessage_rest query groupId env (s : ChatStore.ChatState) :
  trim query ≠ "" ->
  let out := ChatStore.sendMessage query groupId env s in
  let s' := state_of out in
  let reads :=
    match ChatStore.currentSession s, ChatStore.answer_of query groupId env s with
    | Some _, inr _ =>
        [Http.mk Http.GET "/api/chats/" Http.NoBody;
         Http.mk Http.GET "/api/chats/" Http.NoBody]
    | _, _ => []
    end in
  trace_of out
  = trace_of (ChatService.sendMessage query
                (ChatStore.session_id_of (ChatStore.currentSession s)) groupId
                (ChatStore.o_messages env) (ChatStore.o_rag env) s) ++ reads /\
  ChatStore.session_id_of (ChatStore.currentSession s')
  = ChatStore.session_id_of (ChatStore.currentSession s) /\
  (ChatStore.isLoading s' = ChatStore.isLoading s \/ ChatStore.isLoading s' = false) /\
  (ChatStore.sessions s' = ChatStore.sessions s \/
   ChatStore.o_fetch env = inr (ChatStore.sessions s')).
Proof.
  intros Hquery. apply truthy_nonempty in Hquery.
  cbv zeta.
  destruct (ChatStore.sendMessage query groupId env s) as [[res s'] tr] eqn:Hout.
  unfold result_of, state_of, trace_of; simpl fst; simpl snd.
  unfold ChatStore.sendMessage in Hout. rewrite Hquery in Hout.
  change (negb true) with false in Hout. cbv iota in Hout.
  rewrite bind_get, bind_set in Hout.
  unfold try_catch, bind at 1 in Hout.
  match type of Hout with
  | context [ChatService.sendMessage _ _ _ _ _ ?x] => set (s1 := x) in Hout
  end.
  destruct (service_sendMessage_run query
              (ChatStore.session_id_of (ChatStore.currentSession s)) groupId
              (ChatStore.o_messages env) (ChatStore.o_rag env) s1 s)
    as (r & Hrun & Hgroup).
  pose proof (service_sendMessage_trace query
                (ChatStore.session_id_of (ChatStore.currentSession s)) groupId
                (ChatStore.o_messages env) (ChatStore.o_rag env) s s1) as Htr.
  rewrite Hrun in Htr. unfold trace_of in Htr. cbn [snd] in Htr. rewrite Htr.
  rewrite Hrun in Hout. fold (ChatStore.answer_of query groupId env s) in Hout.
  destruct (ChatStore.answer_of query groupId env s) as [e|response].
  - simpl in Hout. injection Hout as <- <- <-. simpl.
    split_and!; [|done|by left|by left].
    by destruct (ChatStore.currentSession s).
  - rewrite bind_set in Hout.
    destruct (ChatStore.currentSession s) as [cs|] eqn:Hcs.
    + unfold ChatStore.fetchSessions, ChatService.getSessions, ChatApi.getSessions,
        bind, try_catch, set_, call, get, ret in Hout.
      destruct (ChatStore.o_fetch env) as [e1|fetched];
        destruct (ChatStore.o_refresh env) as [e2|refreshed]; simpl in Hout.
      * injection Hout as <- <- <-; simpl.
        split_and!; [done | by rewrite Hcs | by right | by left].
      * destruct (List.find _ refreshed) as [updated|] eqn:Hfind;
          [apply find_some in Hfind as [_ Hid]; apply bool_decide_eq_true in Hid;
           destruct (bool_decide _)|];
          simpl in Hout; injection Hout as <- <- <-; simpl;
          (split_and!; [done | rewrite ?Hcs; simpl; by rewrite ?Hid | by right | by left]).
      * injection Hout as <- <- <-; simpl.
        split_and!; [done | by rewrite Hcs | by right | by right].
      * destruct (List.find _ refreshed) as [updated|] eqn:Hfind;
          [apply find_some in Hfind as [_ Hid]; apply bool_decide_eq_true in Hid;
           destruct (bool_decide _)|];
          simpl in Hout; injection Hout as <- <- <-; simpl;
          (split_and!; [done | rewrite ?Hcs; simpl; by rewrite ?Hid | by right | by right]).
    + simpl in Hout. injection Hout as <- <- <-. simpl.
      split_and!; [done | by rewrite Hcs | by left | by left].
Qed.

(** X4: The requests of one [sendMessage]: none for a blank text; otherwise the
    query, followed by two reads of the session list exactly when a session
    is open and the query was answered (the first through [fetchSessions],
    the second directly), whether or not those reads succeed. *)
Theorem sendMessage_requests query groupId env (s : ChatStore.ChatState) :
  trace_of (ChatStore.sendMessage query groupId env s)
  = if truthy (trim query) then
      trace_of (ChatService.sendMessage query
                  (ChatStore.session_id_of (ChatStore.currentSession s)) groupId
                  (ChatStore.o_messages env) (ChatStore.o_rag env) s)
      ++ match ChatStore.currentSession s, ChatStore.answer_of query groupId env s with
         | Some _, inr _ =>
             [Http.mk Http.GET "/api/chats/" Http.NoBody;
              Http.mk Http.GET "/api/chats/" Http.NoBody]
         | _, _ => []
         end
    else [].
Proof.
  destruct (truthy (trim query)) eqn:Hquery.
  - apply truthy_nonempty in Hquery.
    by destruct (sendMessage_rest query groupId env s Hquery) as (-> & _).
  - unfold ChatStore.sendMessage. by rewrite Hquery.
Qed.

(** X5: [sendMessage] never moves the conversation to another session: the
    current session keeps its id (only its record may be refreshed), and the
    list of sessions is either untouched or the list the backend returned to
    [fetchSessions]. *)
Theorem sendMessage_keeps_session query groupId env (s : ChatStore.ChatState) :
  let s' := state_of (ChatStore.sendMessage query groupId env s) in
  ChatStore.session_id_of (ChatStore.currentSession s')
  = ChatStore.session_id_of (ChatStore.currentSession s) /\
  (ChatStore.sessions s' = ChatStore.sessions s \/
   ChatStore.o_fetch env = inr (ChatStore.sessions s')).
Proof.
  cbv zeta. destruct (truthy (trim query)) eqn:Hquery.
  - apply truthy_nonempty in Hquery.
    by destruct (sendMessage_rest query groupId env s Hquery) as (_ & ? & _ & ?).
  - unfold ChatStore.sendMessage. rewrite Hquery. simpl. by split; [|left].
Qed.

(** X6: No action leaves a spinner on: from an idle store (neither loading nor
    sending), every action, however the backend answers, ends in an idle
    store. *)
Theorem idle_preserved (a : ChatStore.action) (s : ChatStore.ChatState) :
  ChatStore.isLoading s = false ->
  ChatStore.isSending s = false ->
  ChatStore.isLoading (ChatStore.run a s) = false /\
  ChatStore.isSending (ChatStore.run a s) = false.
Proof.
  intros Hloading Hsending.
  destruct a as [o | title o | sessionId o | query groupId env | id o | id title o | e];
    simpl.
  - by destruct o.
  - by destruct o.
  - by destruct o.
  - destruct (truthy (trim query)) eqn:Hquery.
    + apply truthy_nonempty in Hquery.
      destruct (sendMessage_shapes query groupId env s Hquery) as (_ & -> & _).
      destruct (sendMessage_rest query groupId env s Hquery) as (_ & _ & [-> | ->] & _);
        by split.
    + unfold ChatStore.sendMessage. by rewrite Hquery.
  - by destruct o as [err|[]].
  - by destruct o.
  - done.
Qed.

Lemma idle_preserved_witness :
  ChatStore.isLoading (ChatStore.run (ChatStore.SendMessage "hi" Null env3) store1) = false /\
  ChatStore.isSending (ChatStore.run (ChatStore.SendMessage "hi" Null env3) store1) = false.
Proof.
  apply (idle_preserved (ChatStore.SendMessage "hi" Null env3) store1); reflexivity.
Defined.

(** X7: Every failing action says why: when the backend call of an action
    fails, the store's [error] is the failure's detail, or the action's own
    fallback text when there is none; it is never an empty message. *)
Theorem failures_reported (a : ChatStore.action) (s : ChatStore.ChatState) e fallback :
  ChatRun.failure_of a s = Some (e, fallback) ->
  ChatStore.error (ChatStore.run a s) = Some (detail_or e fallback) /\
  detail_or e fallback ≠ "".
Proof.
  intros Hfail.
  destruct a as [o | title o | sessionId o | query groupId env | id o | id title o | err];
    simpl in Hfail.
  - destruct o; [|done]. injection Hfail as <- <-.
    split; [done | by apply detail_or_nonempty].
  - destruct o; [|done]. injection Hfail as <- <-.
    split; [done | by apply detail_or_nonempty].
  - destruct o; [|done]. injection Hfail as <- <-.
    split; [done | by apply detail_or_nonempty].
  - destruct (truthy (trim query)) eqn:Hquery; [|done].
    apply truthy_nonempty in Hquery.
    destruct (sendMessage_shapes query groupId env s Hquery) as (_ & _ & _ & Hshape).
    destruct (ChatStore.answer_of query groupId env s) as [e'|response]; [|done].
    injection Hfail as <- <-. destruct Hshape as [_ Herror].
    split; [done | by apply detail_or_nonempty].
  - destruct o; [|done]. injection Hfail as <- <-.
    split; [done | by apply detail_or_nonempty].
  - destruct o; [|done]. injection Hfail as <- <-.
    split; [done | by apply detail_or_nonempty].
  - done.
Qed.

Lemma failures_reported_witness :
  ChatStore.error
    (ChatStore.run (ChatStore.SelectSession "c9" (rejected (AxiosError (Some "Not found"))))
       store1)
  = Some "Not found".
Proof.
  apply (failures_reported
           (ChatStore.SelectSession "c9" (rejected (AxiosError (Some "Not found"))))
           store1 (AxiosError (Some "Not found")) "Failed to load session").
  reflexivity.
Defined.

(** ** Where a query goes *)

(** X8: [ChatApi.query] posts to the chat's own endpoint exactly when the
    request has a non-empty [chat_id]; a missing or empty id sends the whole
    request to [/api/rag/query].  On the chat endpoint the answer text is the
    content of the stored assistant message; a rejection comes back
    unchanged from either endpoint, and the caller's state is not touched. *)
Theorem query_routing {St} (request : ChatQueryRequest.t) o_messages o_rag (s : St) :
  let out := ChatApi.query request o_messages o_rag s in
  state_of out = s /\
  match ChatQueryRequest.chat_id request with
  | Some chat_id =>
      if decide (chat_id = "") then
        out = (o_rag, s, [Http.mk Http.POST "/api/rag/query" (Http.QueryJson request)])
      else
        (exists body,
           trace_of out
           = [Http.mk Http.POST ("/api/chats/" +:+ chat_id +:+ "/messages")
                (Http.MessageJson body)] /\
           MessageBody.content body = ChatQueryRequest.query request) /\
        match o_messages with
        | inl e => result_of out = inl e
        | inr response =>
            exists answer,
              result_of out = inr answer /\
              ChatQueryResponse.message answer
              = ChatMessage.content (SendMessageResponse.assistant_message response) /\
              ChatQueryResponse.sources answer = SendMessageResponse.sources response
        end
  | None =>
      out = (o_rag, s, [Http.mk Http.POST "/api/rag/query" (Http.QueryJson request)])
  end.
Proof.
  cbv zeta. unfold ChatApi.query.
  destruct (ChatQueryRequest.chat_id request) as [chat_id|]; [|done].
  destruct (decide (chat_id = "")) as [->|Hne]; [done|].
  apply truthy_nonempty in Hne. rewrite Hne.
  unfold bind, call, ret, state_of, result_of, trace_of.
  destruct o_messages as [e|response]; simpl; split_and!; eauto.
Qed.

(** ** Actions in sequence *)

(** X9: A message sent right after a session was created goes to that session:
    the query is posted to the new session's message endpoint and the two
    messages built locally carry its id. *)
Theorem send_after_create title session query groupId env (s : ChatStore.ChatState) :
  ChatSession.id session ≠ "" ->
  trim query ≠ "" ->
  let s1 := state_of (ChatStore.createSession title (inr session) s) in
  let out := ChatStore.sendMessage query groupId env s1 in
  (exists body rest,
     trace_of out
     = Http.mk Http.POST ("/api/chats/" +:+ ChatSession.id session +:+ "/messages")
         (Http.MessageJson body) :: rest /\
     MessageBody.content body = query /\
     MessageBody.group_id body = or_null groupId) /\
  Forall (fun m => ChatMessage.session_id m = ChatSession.id session)
    (ChatStore.created (ChatStore.SendMessage query groupId env) s1).
Proof.
  intros Hid Hquery. cbv zeta.
  set (s1 := state_of (ChatStore.createSession title (inr session) s)).
  assert (Hcs : ChatStore.currentSession s1 = Some session) by done.
  clearbody s1. apply truthy_nonempty in Hid.
  split.
  - destruct (sendMessage_rest query groupId env s1 Hquery) as (-> & _).
    rewrite Hcs. unfold ChatService.sendMessage, ChatApi.query; simpl. rewrite Hid.
    unfold bind, call, ret, trace_of.
    destruct (ChatStore.o_messages env); simpl; do 2 eexists;
      (split; [reflexivity|]); simpl; by rewrite or_null_idempotent.
  - unfold ChatStore.created. apply truthy_nonempty in Hquery. rewrite Hquery. simpl.
    rewrite Hcs.
    assert (Hsid : opt_or_str (ChatStore.session_id_of (Some session)) ""
                   = ChatSession.id session).
    { simpl. unfold or_str. by rewrite Hid. }
    destruct (ChatStore.answer_of query groupId env s1); repeat constructor; exact Hsid.
Qed.

Lemma send_after_create_witness :
  Forall (fun m => ChatMessage.session_id m = "c1")
    (ChatStore.created (ChatStore.SendMessage "hi" Null env1)
       (state_of (ChatStore.createSession None (inr session1) ChatStore.initial))).
Proof.
  apply (send_after_create None session1 "hi" Null env1 ChatStore.initial); discriminate.
Defined.

(** X10: A message sent after the open session was deleted belongs to no chat:
    it goes to [/api/rag/query] without a [chat_id], nothing else is
    requested, and the messages built locally carry an empty session id. *)
Theorem send_after_delete cs query groupId env (s : ChatStore.ChatState) :
  ChatStore.currentSession s = Some cs ->
  trim query ≠ "" ->
  let s1 := state_of (ChatStore.deleteSession (ChatSession.id cs) (inr tt) s) in
  let out := ChatStore.sendMessage query groupId env s1 in
  trace_of out
  = [Http.mk Http.POST "/api/rag/query"
       (Http.QueryJson
          (ChatQueryRequest.mk query None (Some true) (Some false) (or_null groupId)))] /\
  ChatStore.messages s1 = [] /\
  Forall (fun m => ChatMessage.session_id m = "")
    (ChatStore.created (ChatStore.SendMessage query groupId env) s1).
Proof.
  intros Hcs Hquery. cbv zeta.
  set (s1 := state_of (ChatStore.deleteSession (ChatSession.id cs) (inr tt) s)).
  assert (Hnone : ChatStore.currentSession s1 = None /\ ChatStore.messages s1 = []).
  { subst s1. simpl. rewrite Hcs. simpl. by rewrite !bool_decide_eq_true_2. }
  destruct Hnone as [Hnone Hempty]. clearbody s1.
  split_and!; [|done|].
  - destruct (sendMessage_rest query groupId env s1 Hquery) as (-> & _).
    by rewrite Hnone.
  - unfold ChatStore.created. apply truthy_nonempty in Hquery. rewrite Hquery. simpl.
    rewrite Hnone.
    destruct (ChatStore.answer_of query groupId env s1); by repeat constructor.
Qed.

Lemma send_after_delete_witness :
  ChatStore.messages (state_of (ChatStore.deleteSession "c1" (inr tt) store1)) = [].
Proof.
  apply (send_after_delete session1 "hi" Null env1 store1); [reflexivity | discriminate].
Defined.

(** ** The chat page *)

(** X11: Submitting from the page sends at most one query, and only for a
    non-blank input while no message is being sent; the query carries the
    group chosen in the select, or null for the "All Documents" option (the
    effect that copies the group store's selection into the page leaves that
    choice as it is).  In the other cases nothing is sent and page and store
    stay as they are. *)
Theorem handleSubmit_sends env value (p : ChatPage.PageState)
    (g : GroupStore.GroupState) (s : ChatStore.ChatState) :
  let chosen := ChatPage.handleGroupChange (ChatPage.select_value value) p g in
  let p1 := ChatPage.syncSelectedGroup chosen.1 chosen.2 in
  let out := ChatPage.handleSubmit env p1 s in
  p1 = chosen.1 /\
  if truthy (trim (ChatPage.input p)) && negb (ChatStore.isSending s) then
    omap Http.group_filter (trace_of out.2)
    = [if decide (value = "") then Null else Val value] /\
    ChatPage.input out.1 = ""
  else out = (p1, (inr tt, s, [])).
Proof.
  cbv zeta.
  assert (Hsync :
            ChatPage.syncSelectedGroup
              (ChatPage.handleGroupChange (ChatPage.select_value value) p g).1
              (ChatPage.handleGroupChange (ChatPage.select_value value) p g).2
            = (ChatPage.handleGroupChange (ChatPage.select_value value) p g).1).
  { unfold ChatPage.syncSelectedGroup, ChatPage.handleGroupChange. simpl.
    by destruct (ChatPage.select_value value). }
  rewrite Hsync. split; [done|].
  unfold ChatPage.handleSubmit. simpl.
  destruct (truthy (trim (ChatPage.input p))) eqn:Hinput; simpl; [|done].
  destruct (ChatStore.isSending s); simpl; [done|].
  split; [|done].
  apply truthy_nonempty in Hinput.
  destruct (sendMessage_shapes (ChatPage.input p)
              (ChatPage.to_nullable (ChatPage.select_value value)) env s Hinput)
    as (_ & _ & -> & _).
  unfold ChatPage.select_value. destruct value; by simpl.
Qed.

(** ** Signing in and out *)

(** X13: [AuthService.login] stores the token as soon as the login call
    answers: when fetching the user then fails, the login is rejected with
    that error, yet the token stays in localStorage, so that
    [AuthService.isAuthenticated] holds for a non-empty token.  When the
    login call itself fails nothing is stored and the user is not asked
    for.  The auth store is not touched either way. *)
Theorem login_token_kept (r : AuthFlow.LoginRequest.t) o_login o_me (w : Auth.World) :
  let out := AuthFlow.login r o_login o_me w in
  Auth.store (state_of out) = Auth.store w /\
  match o_login with
  | inl e =>
      result_of out = inl e /\
      Auth.localStorage (state_of out) = Auth.localStorage w /\
      trace_of out
      = [AuthFlow.mk_request Http.POST "/api/auth/login" (AuthFlow.LoginJson r)]
  | inr tokenResponse =>
      Auth.localStorage (state_of out) !! "auth_token"
      = Some (AuthFlow.TokenResponse.access_token tokenResponse) /\
      AuthFlow.isAuthenticated (state_of out)
      = truthy (AuthFlow.TokenResponse.access_token tokenResponse) /\
      trace_of out
      = [AuthFlow.mk_request Http.POST "/api/auth/login" (AuthFlow.LoginJson r);
         AuthFlow.mk_request Http.GET "/api/auth/me" AuthFlow.NoBody] /\
      match o_me with
      | inl e => result_of out = inl e
      | inr usr =>
          exists response,
            result_of out = inr response /\
            AuthFlow.LoginResponse.access_token response
            = AuthFlow.TokenResponse.access_token tokenResponse /\
            AuthFlow.LoginUser.id (AuthFlow.LoginResponse.user response) = User.id usr /\
            AuthFlow.LoginUser.role (AuthFlow.LoginResponse.user response) = User.role usr
      end
  end.
Proof.
  cbv zeta.
  unfold AuthFlow.login, AuthFlow.api_login, AuthFlow.getCurrentUser,
    AuthFlow.api_getCurrentUser, AuthFlow.setItem, AuthFlow.isAuthenticated,
    bind, call, set_, ret, state_of, result_of, trace_of.
  destruct o_login as [e|tokenResponse]; simpl; [done|].
  destruct o_me as [e|usr]; simpl; rewrite lookup_insert_eq; split_and!; eauto.
Qed.

(** The world [logout] ends in. *)
Lemma logout_state (api_logout : Auth.M unit) (w : Auth.World) :
  let w1 := state_of (api_logout w) in
  state_of (Auth.logout api_logout w)
  = Auth.mk_world
      (Auth.mk None None false (Auth.isLoading (Auth.store w1)) (Auth.error (Auth.store w1)))
      (delete "auth_token" (Auth.localStorage w1)).
Proof.
  unfold Auth.logout, Auth.AuthService.logout, Auth.set_store, Auth.removeItem.
  cbv zeta. by rewrite !try_finally_state.
Qed.

(** X14: After [logout], whatever the API's [logout] did, the user is signed
    out everywhere: [AuthService.isAuthenticated] is false and a protected
    route never renders its children (it redirects to the login page, or
    shows the spinner while the store is loading). *)
Theorem logout_signs_out (api_logout : Auth.M unit) (w : Auth.World) requireAdmin :
  let w' := state_of (Auth.logout api_logout w) in
  AuthFlow.isAuthenticated w' = false /\
  AuthFlow.has_token (Auth.store w') = false /\
  AuthFlow.ProtectedRoute requireAdmin (Auth.store w')
  = if Auth.isLoading (Auth.store w') then AuthFlow.Spinner else AuthFlow.ToLogin.
Proof.
  cbv zeta. rewrite logout_state. cbv zeta.
  unfold AuthFlow.isAuthenticated, AuthFlow.ProtectedRoute; simpl.
  by rewrite lookup_delete_eq.
Qed.

(** X15: [checkAuth] never rejects and never touches localStorage; it asks the
    backend only when the store holds a non-empty token, and afterwards a
    protected route renders its children exactly when that token was there,
    the backend returned the user and, for an admin route, the user is an
    admin.  A failed check clears the token of the store. *)
Theorem checkAuth_outcome (o_me : outcome User.t) (w : Auth.World) requireAdmin :
  let out := AuthFlow.checkAuth o_me w in
  let s' := Auth.store (state_of out) in
  result_of out = inr tt /\
  Auth.localStorage (state_of out) = Auth.localStorage w /\
  trace_of out
  = (if AuthFlow.has_token (Auth.store w)
     then [AuthFlow.mk_request Http.GET "/api/auth/me" AuthFlow.NoBody] else []) /\
  (AuthFlow.has_token (Auth.store w) = true ->
   forall e, o_me = inl e -> Auth.token s' = None /\ Auth.user s' = None) /\
  (AuthFlow.ProtectedRoute requireAdmin s' = AuthFlow.Children
   <-> AuthFlow.has_token (Auth.store w) = true /\
       exists usr, o_me = inr usr /\
                   (requireAdmin = true -> User.role usr = User.admin)).
Proof.
  cbv zeta.
  unfold AuthFlow.checkAuth, AuthFlow.getCurrentUser, AuthFlow.api_getCurrentUser,
    AuthFlow.set_store.
  rewrite bind_get.
  destruct (AuthFlow.has_token (Auth.store w)) eqn:Htoken; simpl.
  - rewrite bind_set. unfold try_catch, bind, call, set_, state_of, result_of, trace_of.
    destruct o_me as [e|usr]; simpl.
    + split_and!; try done.
      unfold AuthFlow.ProtectedRoute; simpl. split; [done|].
      by intros (_ & usr & ? & _).
    + split_and!; try done.
      unfold AuthFlow.ProtectedRoute, AuthFlow.not_admin; simpl. split.
      * intros Hview. split; [done|]. exists usr. split; [done|].
        intros ->. simpl in Hview. by destruct (User.role usr).
      * intros (_ & usr' & [= <-] & Hadmin).
        destruct requireAdmin; simpl; [|done]. by rewrite Hadmin.
  - unfold set_, state_of, result_of, trace_of; simpl.
    split_and!; try done.
    unfold AuthFlow.ProtectedRoute; simpl. split.
    + by destruct (Auth.isLoading (Auth.store w)).
    + by intros [? _].
Qed.

(** ** Uploading through the document store *)

(** The service upload settles the same way from every state, and leaves
    the state alone. *)
Lemma service_upload_run file groupId o_request o_put o_confirm :
  exists r t, forall St (s : St),
    DocumentService.uploadFile file groupId o_request o_put o_confirm s = (r, s, t).
Proof.
  unfold DocumentService.uploadFile, DocumentApi.requestUpload, DocumentApi.uploadFile,
    DocumentApi.confirmUpload, bind, call, throw.
  destruct o_request as [e|response]; simpl; [eauto|].
  destruct (UploadRequestResponse.uploads response) as [|uploadItem rest]; simpl; [eauto|].
  destruct o_put as [e|[]]; simpl; eauto.
Qed.

(** The timer callback changes the progress only. *)
Lemma progress_ticks_frame n (s : DocumentStore.DocumentState) :
  let s' := Nat.iter n DocumentUpload.progress_tick s in
  DocumentStore.documents s' = DocumentStore.documents s /\
  DocumentStore.selectedDocument s' = DocumentStore.selectedDocument s /\
  DocumentStore.isLoading s' = DocumentStore.isLoading s /\
  DocumentStore.error s' = DocumentStore.error s.
Proof.
  induction n as [|n IH]; [done|].
  cbv zeta in *. simpl. by destruct IH as (-> & -> & -> & ->).
Qed.

(** After at least one run the simulated progress is the start plus ten per
    run, capped at 90. *)
Lemma progress_ticks_value n (s : DocumentStore.DocumentState) :
  DocumentStore.uploadProgress (Nat.iter (S n) DocumentUpload.progress_tick s)
  = Z.min (DocumentStore.uploadProgress s + 10 * Z.of_nat (S n)) 90.
Proof.
  induction n as [|n IH]; [simpl; f_equal; lia|].
  rewrite Nat.iter_succ. unfold DocumentUpload.progress_tick at 1.
  cbn [DocumentStore.uploadProgress]. rewrite IH. lia.
Qed.

Lemma fire_run n (w : DocumentUpload.World) :
  exists s',
    DocumentUpload.fire n w
    = (inr tt, DocumentUpload.mk_world s' (DocumentUpload.intervals w)
                 (DocumentUpload.next_handle w), []) /\
    DocumentStore.documents s' = DocumentStore.documents (DocumentUpload.store w) /\
    DocumentStore.selectedDocument s'
    = DocumentStore.selectedDocument (DocumentUpload.store w) /\
    DocumentStore.isLoading s' = DocumentStore.isLoading (DocumentUpload.store w) /\
    DocumentStore.error s' = DocumentStore.error (DocumentUpload.store w).
Proof.
  unfold DocumentUpload.fire, set_.
  destruct w as [s l h]; simpl. destruct l as [|h0 l].
  - by exists s.
  - exists (Nat.iter n DocumentUpload.progress_tick s).
    split; [done|]. apply progress_ticks_frame.
Qed.

(** How the store's [uploadFile] runs. *)
Lemma store_uploadFile_run file groupId env (w : DocumentUpload.World) :
  let out := DocumentUpload.uploadFile file groupId env w in
  let svc := DocumentService.uploadFile file groupId (DocumentUpload.o_request env)
               (DocumentUpload.o_put env) (DocumentUpload.o_confirm env) w in
  let s' := DocumentUpload.store (state_of out) in
  result_of out = result_of svc /\
  DocumentStore.isLoading s' = false /\
  DocumentStore.uploadProgress s' = 0%Z /\
  DocumentStore.selectedDocument s'
  = DocumentStore.selectedDocument (DocumentUpload.store w) /\
  match result_of svc with
  | inr document =>
      trace_of out = trace_of svc ++ [Http.mk Http.GET "/api/documents/" Http.NoBody] /\
      DocumentUpload.intervals (state_of out)
      = filter (fun h => h ≠ DocumentUpload.next_handle w) (DocumentUpload.intervals w) /\
      match DocumentUpload.o_fetch env with
      | inr documents => DocumentStore.documents s' = documents /\
                         DocumentStore.error s' = None
      | inl e =>
          DocumentStore.documents s' = DocumentStore.documents (DocumentUpload.store w) /\
          DocumentStore.error s' = Some (detail_or e "Failed to fetch documents")
      end
  | inl e =>
      trace_of out = trace_of svc /\
      DocumentUpload.intervals (state_of out)
      = DocumentUpload.intervals w ++ [DocumentUpload.next_handle w] /\
      DocumentStore.documents s' = DocumentStore.documents (DocumentUpload.store w) /\
      DocumentStore.error s' = Some (detail_or e "Upload failed")
  end.
Proof.
  cbv zeta.
  destruct (service_upload_run file groupId (DocumentUpload.o_request env)
              (DocumentUpload.o_put env) (DocumentUpload.o_confirm env))
    as (r & t & Hrun).
  rewrite (Hrun _ w).
  destruct (DocumentUpload.uploadFile file groupId env w) as [[res w'] tr] eqn:Hout.
  unfold result_of, state_of, trace_of; simpl fst; simpl snd.
  unfold DocumentUpload.uploadFile, DocumentUpload.set_store in Hout.
  rewrite bind_set in Hout. unfold try_catch in Hout.
  unfold bind at 1, DocumentUpload.setInterval in Hout.
  unfold bind at 1 in Hout.
  match type of Hout with
  | context [DocumentUpload.fire _ ?x] => set (w1 := x) in Hout
  end.
  destruct (fire_run (DocumentUpload.fired_during_upload env) w1)
    as (s2 & Hfire & Hdocs & Hsel & Hload & Herr).
  rewrite Hfire in Hout. subst w1. simpl in Hdocs, Hsel, Hload, Herr.
  unfold bind at 1 in Hout. rewrite Hrun in Hout.
  destruct r as [e|document].
  - simpl in Hout. injection Hout as <- <- <-. simpl.
    by rewrite Hsel, Hdocs, app_nil_r.
  - unfold bind at 1, DocumentUpload.clearInterval, set_ at 1 in Hout.
    rewrite bind_set in Hout. unfold bind at 1 in Hout.
    match type of Hout with
    | context [DocumentUpload.fire _ ?x] => set (w3 := x) in Hout
    end.
    destruct (fire_run (DocumentUpload.fired_during_refresh env) w3)
      as (s4 & Hfire' & Hdocs' & Hsel' & Hload' & Herr').
    rewrite Hfire' in Hout. subst w3. simpl in Hdocs', Hsel', Hload', Herr'.
    unfold DocumentUpload.on_store, DocumentStore.fetchDocuments,
      DocumentService.getDocuments, DocumentApi.getDocuments,
      bind, try_catch, set_, call, ret in Hout.
    simpl in Hout.
    assert (Hfilter :
              filter (fun h => h ≠ DocumentUpload.next_handle w)
                (DocumentUpload.intervals w ++ [DocumentUpload.next_handle w])
              = filter (fun h => h ≠ DocumentUpload.next_handle w)
                  (DocumentUpload.intervals w)).
    { rewrite filter_app, filter_cons_False by (by intros H). apply app_nil_r. }
    destruct (DocumentUpload.o_fetch env) as [e|documents]; simpl in Hout;
      injection Hout as <- <- <-; simpl; rewrite Hfilter, ?Hsel', ?Hdocs';
      simpl; rewrite ?Hsel, ?Hdocs; simpl; by rewrite ?app_nil_r.
Qed.

(** X16: The store's [uploadFile] settles as the service upload does: with the
    confirmed document, or with the same error.  It always ends with
    [isLoading] false and [uploadProgress] 0 and never touches the selected
    document.  On success the upload's calls are followed by one read of the
    document list, which replaces [documents] when it succeeds, and the
    progress timer is cleared.  On failure [error] is the failure's detail or
    ["Upload failed"], [documents] is unchanged, and the progress timer is
    left running. *)
Theorem store_uploadFile_outcome file groupId env (w : DocumentUpload.World) :
  let out := DocumentUpload.uploadFile file groupId env w in
  let svc := DocumentService.uploadFile file groupId (DocumentUpload.o_request env)
               (DocumentUpload.o_put env) (DocumentUpload.o_confirm env) w in
  let s' := DocumentUpload.store (state_of out) in
  result_of out = result_of svc /\
  DocumentStore.isLoading s' = false /\
  DocumentStore.uploadProgress s' = 0%Z /\
  DocumentStore.selectedDocument s'
  = DocumentStore.selectedDocument (DocumentUpload.store w) /\
  match result_of svc with
  | inr document =>
      trace_of out = trace_of svc ++ [Http.mk Http.GET "/api/documents/" Http.NoBody] /\
      DocumentUpload.intervals (state_of out)
      = filter (fun h => h ≠ DocumentUpload.next_handle w) (DocumentUpload.intervals w) /\
      match DocumentUpload.o_fetch env with
      | inr documents => DocumentStore.documents s' = documents /\
                         DocumentStore.error s' = None
      | inl e =>
          DocumentStore.documents s' = DocumentStore.documents (DocumentUpload.store w) /\
          DocumentStore.error s' = Some (detail_or e "Failed to fetch documents")
      end
  | inl e =>
      trace_of out = trace_of svc /\
      DocumentUpload.intervals (state_of out)
      = DocumentUpload.intervals w ++ [DocumentUpload.next_handle w] /\
      DocumentStore.documents s' = DocumentStore.documents (DocumentUpload.store w) /\
      DocumentStore.error s' = Some (detail_or e "Upload failed")
  end.
Proof. apply store_uploadFile_run. Qed.

(** X17: A failed upload leaves its progress timer running: although the store
    is no longer loading, the next runs of the callback raise
    [uploadProgress] again from 0, by ten per run up to 90. *)
Theorem failed_upload_keeps_ticking file groupId env (w : DocumentUpload.World) e n :
  result_of (DocumentUpload.uploadFile file groupId env w) = inl e ->
  let w' := state_of (DocumentUpload.uploadFile file groupId env w) in
  let later := DocumentUpload.store (state_of (DocumentUpload.fire (S n) w')) in
  DocumentUpload.next_handle w ∈ DocumentUpload.intervals w' /\
  DocumentStore.isLoading later = false /\
  DocumentStore.uploadProgress later = Z.min (10 * Z.of_nat (S n)) 90.
Proof.
  intros Hres. cbv zeta.
  destruct (store_uploadFile_run file groupId env w)
    as (Hsame & Hloading & Hprogress & _ & Hcase).
  rewrite Hres in Hsame. rewrite <- Hsame in Hcase.
  destruct Hcase as (_ & Hintervals & _).
  set (w' := state_of (DocumentUpload.uploadFile file groupId env w)) in *.
  destruct w' as [s' l' h']. simpl in Hloading, Hprogress, Hintervals. subst l'.
  split; [simpl; set_solver|].
  unfold DocumentUpload.fire, set_, state_of. cbn [fst snd DocumentUpload.intervals].
  destruct (DocumentUpload.intervals w ++ [DocumentUpload.next_handle w])
    as [|h l] eqn:Hlive; [by destruct (DocumentUpload.intervals w)|].
  cbn [DocumentUpload.store]. split.
  - by destruct (progress_ticks_frame (S n) s') as (_ & _ & -> & _).
  - rewrite progress_ticks_value, Hprogress. f_equal.
Qed.

Lemma failed_upload_keeps_ticking_witness :
  DocumentStore.uploadProgress
    (DocumentUpload.store
       (state_of (DocumentUpload.fire 2
                    (state_of (DocumentUpload.uploadFile file1 Null failing_upload
                                 fresh_page)))))
  = 20%Z.
Proof.
  apply (failed_upload_keeps_ticking file1 Null failing_upload fresh_page
           (AxiosError None) 1).
  reflexivity.
Defined.


(** ** [trim] *)

Lemma string_app_cons a (s t : string) : String a s +:+ t = String a (s +:+ t).
Proof. reflexivity. Qed.

Lemma string_app_assoc (s1 s2 s3 : string) : (s1 +:+ s2) +:+ s3 = s1 +:+ (s2 +:+ s3).
Proof. induction s1 as [|a s1 IH]; [done|]. by rewrite !string_app_cons, IH. Qed.

Lemma string_app_nil_r (s : string) : s +:+ "" = s.
Proof. induction s as [|a s IH]; [done|]. by rewrite string_app_cons, IH. Qed.

Lemma rev_app_spec (s1 s2 : string) : String.rev_app s1 s2 = String.rev s1 +:+ s2.
Proof.
  revert s2. induction s1 as [|a s1 IH]; intros s2; [done|].
  unfold String.rev. simpl. rewrite (IH (String a "")), IH.
  by rewrite string_app_assoc.
Qed.

Lemma rev_cons a (s : string) : String.rev (String a s) = String.rev s +:+ String a "".
Proof. unfold String.rev at 1. simpl. apply rev_app_spec. Qed.

Lemma rev_app (s1 s2 : string) : String.rev (s1 +:+ s2) = String.rev s2 +:+ String.rev s1.
Proof.
  induction s1 as [|a s1 IH].
  - change ("" +:+ s2) with s2. by rewrite string_app_nil_r.
  - by rewrite string_app_cons, !rev_cons, IH, string_app_assoc.
Qed.

Lemma rev_involutive (s : string) : String.rev (String.rev s) = s.
Proof.
  induction s as [|a s IH]; [done|].
  by rewrite rev_cons, rev_app, IH.
Qed.

Lemma rev_empty (s : string) : String.rev s = "" -> s = "".
Proof. intros H. by rewrite <- (rev_involutive s), H. Qed.

Lemma trimStart_idempotent s : trimStart (trimStart s) = trimStart s.
Proof.
  induction s as [|a s IH]; [done|].
  simpl. destruct (is_white_space a) eqn:Ha; [done|].
  simpl. by rewrite Ha.
Qed.

Lemma trimStart_app_blank s t : trimStart s = "" -> trimStart (s +:+ t) = trimStart t.
Proof.
  induction s as [|a s IH]; [done|].
  rewrite string_app_cons. simpl. by destruct (is_white_space a).
Qed.

Lemma trimStart_app_solid s t : trimStart s ≠ "" -> trimStart (s +:+ t) = trimStart s +:+ t.
Proof.
  induction s as [|a s IH]; [done|].
  rewrite string_app_cons. simpl. by destruct (is_white_space a).
Qed.

(** [trimEnd], read from the front. *)
Lemma trimEnd_cons a s :
  trimEnd (String a s)
  = if decide (trimEnd s = "")
    then (if is_white_space a then "" else String a "")
    else String a (trimEnd s).
Proof.
  unfold trimEnd. rewrite rev_cons.
  destruct (decide (trimStart (String.rev s) = "")) as [Hblank|Hsolid].
  - rewrite trimStart_app_blank, Hblank by done. simpl.
    by destruct (is_white_space a).
  - rewrite trimStart_app_solid, rev_app by done.
    rewrite decide_False; [done|]. by intros H%rev_empty.
Qed.

Lemma trimEnd_idempotent s : trimEnd (trimEnd s) = trimEnd s.
Proof. unfold trimEnd. by rewrite rev_involutive, trimStart_idempotent. Qed.

(** Trimming the end of a string that does not start with white space
    leaves one that does not either. *)
Lemma trimStart_trimEnd s : trimStart s = s -> trimStart (trimEnd s) = trimEnd s.
Proof.
  destruct s as [|a s]; [done|].
  intros Hs. simpl in Hs.
  destruct (is_white_space a) eqn:Ha.
  - exfalso.
    assert (Hlen : forall x, (String.length (trimStart x) <= String.length x)%nat).
    { induction x as [|b x IH]; simpl; [done|].
      destruct (is_white_space b); simpl; lia. }
    specialize (Hlen s). rewrite Hs in Hlen. simpl in Hlen. lia.
  - rewrite trimEnd_cons. rewrite Ha.
    destruct (decide (trimEnd s = "")); simpl; by rewrite Ha.
Qed.

(** A trimmed string has no white space left at either end: trimming it
    again changes nothing. *)
Lemma trim_idempotent s : trim (trim s) = trim s.
Proof.
  unfold trim.
  rewrite (trimStart_trimEnd (trimStart s)) by apply trimStart_idempotent.
  apply trimEnd_idempotent.
Qed.

(** ** Renaming a session from the page *)

(** X12: [handleSaveRename] sends a title only when a session is being edited
    and the typed title is not blank; the title it sends is the typed one
    trimmed, so it is never empty and has no white space at either end.
    Otherwise nothing is sent and nothing changes. *)
Theorem handleSaveRename_title o (p : ChatPage.PageState) (s : ChatStore.ChatState) :
  let out := ChatPage.handleSaveRename o p s in
  match trace_of out.2 with
  | [] => out = (p, (inr tt, s, []))
  | r :: rest =>
      rest = [] /\
      exists id title,
        ChatPage.editingSessionId p = Some id /\
        r = Http.mk Http.PATCH ("/api/chats/" +:+ id) (Http.TitleJson (Some title)) /\
        title = trim (ChatPage.editTitle p) /\
        title ≠ "" /\ trim title = title /\
        ChatPage.editingSessionId out.1 = None /\ ChatPage.editTitle out.1 = ""
  end.
Proof.
  cbv zeta. unfold ChatPage.handleSaveRename.
  destruct (ChatPage.editingSessionId p) as [id|]; [|done].
  destruct (truthy id); simpl; [|done].
  destruct (truthy (trim (ChatPage.editTitle p))) eqn:Htitle; [|done].
  apply truthy_nonempty in Htitle.
  destruct o as [e|updated]; simpl; (split; [done|]);
    exists id, (trim (ChatPage.editTitle p)); split_and!; try done;
    apply trim_idempotent.
Qed.

(** ** Document groups *)

Section GroupLemmas.
Variable message : exn -> string.

(** X18: [deleteGroup]: on success the groups with that id are gone, the others
    stay in order, and the selection is cleared exactly when it was the
    deleted group; on failure groups and selection stay, the error message is
    recorded and the error is thrown on.  [isLoading] is never touched. *)
Theorem deleteGroup_frame id (o : outcome unit) (s : GroupStore.GroupState) :
  let out := GroupStore.deleteGroup message id o s in
  let s' := state_of out in
  result_of out = o /\
  GroupStore.isLoading s' = GroupStore.isLoading s /\
  trace_of out = [GroupApi.mk Http.DELETE ("/api/groups/" +:+ id) GroupApi.NoBody] /\
  match o with
  | inr _ =>
      GroupStore.groups s'
      = filter (fun g => DocumentGroup.id g ≠ id) (GroupStore.groups s) /\
      GroupStore.selectedGroupId s'
      = (if decide (GroupStore.selectedGroupId s = Some id)
         then None else GroupStore.selectedGroupId s) /\
      GroupStore.error s' = None
  | inl e =>
      GroupStore.groups s' = GroupStore.groups s /\
      GroupStore.selectedGroupId s' = GroupStore.selectedGroupId s /\
      GroupStore.error s' = Some (message e)
  end.
Proof.
  destruct o as [e|[]]; cbv zeta; simpl; [done|].
  split_and!; try done.
  destruct (decide (GroupStore.selectedGroupId s = Some id)) as [Heq|Hne].
  - by rewrite bool_decide_eq_true_2.
  - by rewrite bool_decide_eq_false_2.
Qed.

(** X19: [createGroup] and [updateGroup] keep every other group where it is:
    a created group is added at the end of the list, an update keeps the
    length of the list and replaces only the groups with that id.  Both
    return the backend's group, and on failure both leave the list alone and
    throw the error on. *)
Theorem group_edits_keep_others id create_request update_request
    (o : outcome DocumentGroup.t) (s : GroupStore.GroupState) :
  let created := GroupStore.createGroup message create_request o s in
  let updated := GroupStore.updateGroup message id update_request o s in
  result_of created = o /\
  result_of updated = o /\
  GroupStore.selectedGroupId (state_of created) = GroupStore.selectedGroupId s /\
  GroupStore.selectedGroupId (state_of updated) = GroupStore.selectedGroupId s /\
  match o with
  | inr group =>
      GroupStore.groups (state_of created) = GroupStore.groups s ++ [group] /\
      List.length (GroupStore.groups (state_of updated))
      = List.length (GroupStore.groups s) /\
      forall i g, GroupStore.groups s !! i = Some g ->
                  GroupStore.groups (state_of updated) !! i
                  = Some (if decide (DocumentGroup.id g = id) then group else g)
  | inl e =>
      GroupStore.groups (state_of created) = GroupStore.groups s /\
      GroupStore.groups (state_of updated) = GroupStore.groups s /\
      GroupStore.error (state_of created) = Some (message e) /\
      GroupStore.error (state_of updated) = Some (message e)
  end.
Proof.
  destruct o as [e|group]; cbv zeta; simpl; [done|].
  split_and!; try done; [by rewrite length_fmap|].
  intros i g Hg. rewrite list_lookup_fmap, Hg. simpl.
  destruct (decide (DocumentGroup.id g = id)).
  - by rewrite bool_decide_eq_true_2.
  - by rewrite bool_decide_eq_false_2.
Qed.

(** X20: [GroupManager]'s [handleCreate] never rejects and sends at most one
    request, only for a non-blank name; the group it asks for has the typed
    name trimmed (not empty, no white space at either end) and a trimmed
    description, or null when the description is blank.  The form is reset
    exactly when the group was created. *)
Theorem handleCreate_sends o (f : GroupManager.Form) (s : GroupStore.GroupState) :
  let out := GroupManager.handleCreate message o f s in
  result_of out.2 = inr tt /\
  match trace_of out.2 with
  | [] => trim (GroupManager.name f) = "" /\ out = (f, (inr tt, s, []))
  | r :: rest =>
      rest = [] /\
      (out.1 = (if o is inr _ then GroupManager.resetForm else f)) /\
      exists request,
        r = GroupApi.mk Http.POST "/api/groups" (GroupApi.CreateJson request) /\
        CreateGroupRequest.name request = trim (GroupManager.name f) /\
        CreateGroupRequest.name request ≠ "" /\
        trim (CreateGroupRequest.name request) = CreateGroupRequest.name request /\
        match CreateGroupRequest.description request with
        | Val d => d = trim (GroupManager.description f) /\ d ≠ ""
        | Null => trim (GroupManager.description f) = ""
        | Undefined => False
        end
  end.
Proof.
  cbv zeta. unfold GroupManager.handleCreate.
  destruct (truthy (trim (GroupManager.name f))) eqn:Hname; simpl.
  - apply truthy_nonempty in Hname.
    assert (Hdescription :
              match GroupManager.trimmed_or_null (GroupManager.description f) with
              | Val d => d = trim (GroupManager.description f) /\ d ≠ ""
              | Null => trim (GroupManager.description f) = ""
              | Undefined => False
              end).
    { unfold GroupManager.trimmed_or_null.
      destruct (truthy (trim (GroupManager.description f))) eqn:Hd.
      - split; [done | by apply truthy_nonempty].
      - by destruct (trim (GroupManager.description f)). }
    destruct o as [e|group]; simpl; (split; [done|]); (split; [done|]);
      (split; [done|]); eexists; (split; [reflexivity|]); simpl;
      split_and!; try done; apply trim_idempotent.
  - split; [done|]. split; [|done]. by destruct (trim (GroupManager.name f)).
Qed.
End GroupLemmas.

(** ** The query string of [getUsage] *)

Lemma list_ascii_app (s t : string) :
  list_ascii_of_string (s +:+ t) = list_ascii_of_string s ++ list_ascii_of_string t.
Proof.
  induction s as [|a s IH]; [done|].
  rewrite string_app_cons. simpl. by rewrite IH.
Qed.

Lemma hex_digit_safe d :
  (d < 16)%nat -> TokenUsageApi.safe (TokenUsageApi.hex_digit d) = true.
Proof.
  intros Hd.
  do 16 (destruct d as [|d]; [by vm_compute|]).
  lia.
Qed.

Lemma percent_safe b :
  (b < 256)%nat ->
  Forall (fun a => TokenUsageApi.safe a = true)
    (list_ascii_of_string (TokenUsageApi.percent b)).
Proof.
  intros Hb. unfold TokenUsageApi.percent. cbn [list_ascii_of_string].
  repeat constructor.
  - apply hex_digit_safe. apply Nat.Div0.div_lt_upper_bound. lia.
  - apply hex_digit_safe. apply Nat.mod_upper_bound. lia.
Qed.

Lemma encode_unit_safe a :
  Forall (fun c => TokenUsageApi.safe c = true)
    (list_ascii_of_string (TokenUsageApi.encode_unit a)).
Proof.
  unfold TokenUsageApi.encode_unit. cbv zeta.
  pose proof (nat_ascii_bounded a) as Hbound.
  destruct (nat_of_ascii a =? 32)%nat; [by repeat constructor|].
  destruct (TokenUsageApi.unreserved (nat_of_ascii a)) eqn:Hun.
  - repeat constructor. unfold TokenUsageApi.safe. cbv zeta. by rewrite Hun.
  - destruct (nat_of_ascii a <? 128)%nat eqn:Hlow.
    + apply percent_safe. lia.
    + rewrite list_ascii_app. apply Forall_app. split; apply percent_safe.
      * assert (nat_of_ascii a / 64 < 4)%nat
          by (apply Nat.Div0.div_lt_upper_bound; lia).
        lia.
      * pose proof (Nat.mod_upper_bound (nat_of_ascii a) 64). lia.
Qed.

Lemma form_urlencode_safe s :
  Forall (fun c => TokenUsageApi.safe c = true)
    (list_ascii_of_string (TokenUsageApi.form_urlencode s)).
Proof.
  induction s as [|a s IH]; [constructor|].
  simpl. rewrite list_ascii_app. apply Forall_app. split; [apply encode_unit_safe | exact IH].
Qed.

(** X21: [getUsage] sends one GET whose query string is [provider=...&days=...],
    or [days=...] alone when the provider is missing or empty; the days are
    the given number, or the default, rendered by [toString] and encoded
    (so [days=30] by default, 30 being rendered as "30").  Whatever the
    provider's text and however the number is rendered, the encoded forms
    are made of letters, digits and [* - . _ % +] only: they cannot bring an
    [&], [=], [#], [?], [/] or a space into the URL, hence no parameter of
    their own. *)
Theorem getUsage_query_string {St} (number : Type) (toString : number -> string)
    (thirty : number) provider days o (s : St) :
  let encoded := match provider with
                 | Some p => TokenUsageApi.form_urlencode p
                 | None => ""
                 end in
  let encoded_days := TokenUsageApi.form_urlencode (toString (default thirty days)) in
  let clean c := TokenUsageApi.safe c = true /\
                 c ≠ "&"%char /\ c ≠ "="%char /\ c ≠ "#"%char /\ c ≠ "?"%char /\
                 c ≠ "/"%char /\ c ≠ " "%char in
  trace_of (TokenUsageApi.getUsage number toString thirty provider days o s)
  = [Http.mk Http.GET
       ("/api/tokens/usage?"
        +:+ (if truthy (default "" provider)
             then "provider=" +:+ encoded +:+ "&" else "")
        +:+ "days=" +:+ encoded_days)
       Http.NoBody] /\
  result_of (TokenUsageApi.getUsage number toString thirty provider days o s) = o /\
  Forall clean (list_ascii_of_string encoded) /\
  Forall clean (list_ascii_of_string encoded_days) /\
  (toString thirty = "30" -> days = None -> encoded_days = "30").
Proof.
  cbv zeta.
  assert (Hclean : forall t,
            Forall (fun c => TokenUsageApi.safe c = true /\
                             c ≠ "&"%char /\ c ≠ "="%char /\ c ≠ "#"%char /\
                             c ≠ "?"%char /\ c ≠ "/"%char /\ c ≠ " "%char)
              (list_ascii_of_string (TokenUsageApi.form_urlencode t))).
  { intros t. eapply Forall_impl; [apply form_urlencode_safe|].
    intros c Hc. split_and!; [done | by intros -> ..]. }
  split_and!; [|done| |apply Hclean|].
  - unfold TokenUsageApi.getUsage, call, trace_of, TokenUsageApi.usage_params. simpl.
    destruct provider as [p|]; simpl; [|done].
    destruct (truthy p); simpl; [|done].
    by rewrite !string_app_assoc.
  - destruct provider; [apply Hclean | constructor].
  - by intros Hthirty ->; simpl; rewrite Hthirty.
Qed.

(** With integers for numbers, written in decimal. *)
Example getUsage_seven_days :
  trace_of (TokenUsageApi.getUsage Z pretty 30%Z (Some "a b&c") (Some 7%Z)
              (fulfilled []) ChatStore.initial)
  = [Http.mk Http.GET "/api/tokens/usage?provider=a+b%26c&days=7" Http.NoBody].
Proof. reflexivity. Qed.

(** ** Creating and deleting *)

Lemma filter_all {A} (P : A -> Prop) `{!forall x, Decision (P x)} (l : list A) :
  Forall P l -> filter P l = l.
Proof.
  induction 1 as [|x l Hx Hl IH]; [done|].
  by rewrite filter_cons_True, IH.
Qed.

(** X22: Deleting a session that was just created undoes the creation: when
    no other session has its id, the list of sessions is the one before, no
    session is open and no message is shown; the store is not loading, holds
    no error, and [isSending] is what it was. *)
Theorem create_then_delete_session title session (s : ChatStore.ChatState) :
  Forall (fun x => ChatSession.id x ≠ ChatSession.id session) (ChatStore.sessions s) ->
  let s1 := state_of (ChatStore.createSession title (inr session) s) in
  let s2 := state_of (ChatStore.deleteSession (ChatSession.id session) (inr tt) s1) in
  ChatStore.sessions s2 = ChatStore.sessions s /\
  ChatStore.currentSession s2 = None /\
  ChatStore.messages s2 = [] /\
  ChatStore.error s2 = None /\
  ChatStore.isLoading s2 = false /\
  ChatStore.isSending s2 = ChatStore.isSending s.
Proof.
  intros Hfresh. cbv zeta. simpl.
  rewrite !bool_decide_eq_true_2 by done.
  split_and!; try done.
  rewrite filter_cons_False by (by intros H).
  by apply filter_all.
Qed.

Lemma create_then_delete_session_witness :
  ChatStore.sessions
    (state_of (ChatStore.deleteSession "c1" (inr tt)
                 (state_of (ChatStore.createSession None (inr session1) ChatStore.initial))))
  = [].
Proof.
  apply (create_then_delete_session None session1 ChatStore.initial). constructor.
Defined.

(** X23: Deleting a group that was just created, when no other group has
    its id, gives back the list of groups; the selection is kept unless it
    was that very id. *)
Theorem create_then_delete_group message request group (s : GroupStore.GroupState) :
  Forall (fun g => DocumentGroup.id g ≠ DocumentGroup.id group) (GroupStore.groups s) ->
  let s1 := state_of (GroupStore.createGroup message request (inr group) s) in
  let s2 := state_of (GroupStore.deleteGroup message (DocumentGroup.id group) (inr tt) s1) in
  GroupStore.groups s2 = GroupStore.groups s /\
  GroupStore.selectedGroupId s2
  = (if decide (GroupStore.selectedGroupId s = Some (DocumentGroup.id group))
     then None else GroupStore.selectedGroupId s).
Proof.
  intros Hfresh. cbv zeta. simpl. split.
  - rewrite filter_app, filter_cons_False by (by intros H).
    rewrite filter_all by done. apply app_nil_r.
  - destruct (decide (GroupStore.selectedGroupId s = Some (DocumentGroup.id group))).
    + by rewrite bool_decide_eq_true_2.
    + by rewrite bool_decide_eq_false_2.
Qed.

Lemma create_then_delete_group_witness :
  GroupStore.groups
    (state_of (GroupStore.deleteGroup (fun _ => "Network Error") "g1" (inr tt)
                 (state_of (GroupStore.createGroup (fun _ => "Network Error")
                              (CreateGroupRequest.mk "Specs" Null (Val "#3B82F6"))
                              (inr group1) groups1))))
  = [].
Proof.
  apply (create_then_delete_group (fun _ => "Network Error")
           (CreateGroupRequest.mk "Specs" Null (Val "#3B82F6")) group1 groups1).
  constructor.
Defined.
